(** * cfgrib: unit conversion (cfunits.py) and CF coordinate translation
    (cfcoords.py)

    A shallow embedding of the two modules.  Python exceptions are the
    [Raise] results of an error monad, Python floats are IEEE binary64
    numbers ([PrimFloat]), dictionaries that are iterated keep their
    insertion order (lists of pairs), attribute dictionaries that are only
    read and written by key are finite maps. *)

From Stdlib Require Import ZArith QArith Floats.PrimFloat Numbers.Cyclic.Int63.Uint63.
From stdpp Require Import base option list gmap strings.

Set Warnings "-inexact-float".

Local Open Scope string_scope.
Local Open Scope list_scope.
Local Open Scope nat_scope.

(** ** Exceptions *)

(** The three [ValueError]s of cfcoords.py, told apart by their message;
    the others are those of the dataset library: the two checks of
    [swap_dims] and the refusal of [rename]. *)
Inductive message :=
| MoreThanOneCoordinate (cf_type : string)
    (* "Found more than one CF coordinate with type %r." *)
| NonCompliantCoordinate (cf_type : string)
    (* "Found non CF compliant coordinate with type %r" *)
| NotEnoughInformation
    (* "Not enough information to ensure a 'valid_time'." *)
| NotAnExistingDimension (dim : string)
| NotAlongDimension (name dim : string)
| CannotRename (old new : string).

Inductive exn :=
| ConversionError (source_units target_units : string)
    (* 'Cannot convert from %r to %r' % (source_units, target_units) *)
| ValueError (msg : message)
| KeyError (key : string)
| ZeroDivisionError.

Inductive result (A : Type) :=
| Return (a : A)
| Raise (e : exn).
Arguments Return {A} a.
Arguments Raise {A} e.

(** An exception ends the computation: [x ← r; k] runs [k] on the value
    of [r] only when [r] returns. *)
#[export] Instance result_ret : MRet result := λ A a, Return a.
#[export] Instance result_bind : MBind result := λ A B k r,
  match r with
  | Return a => k a
  | Raise e => Raise e
  end.

(** ** Arithmetic *)

(** [is_zero] is false at [n], [n + 1], ..., [fuel] numbers in all. *)
Fixpoint literals_nonzero (is_zero : Z → bool) (fuel : nat) (n : Z) : bool :=
  match fuel with
  | O => true
  | S fuel' =>
      if is_zero n then false else literals_nonzero is_zero fuel' (n + 1)
  end.

(** The float operations the code uses: the literal [n.] of an integer [n],
    [*] and [/], and [+] on the elements of arrays.  [f_is_zero] is the test
    of the division: [x / y] raises [ZeroDivisionError] when [y == 0.], and
    is [f_div x y] otherwise.  The literal of a positive integer up to 2^20
    (the factors of the rule tables are such literals) is not zero.  The code
    computes with binary64 ([float_arith]); the rationals ([Q_arith]) are the
    same program over exact arithmetic. *)
Class Arith (F : Type) := {
  f_lit : Z → F;
  f_add : F → F → F;
  f_mul : F → F → F;
  f_div : F → F → F;
  f_is_zero : F → bool;
  f_lit_nonzero :
    literals_nonzero (λ n, f_is_zero (f_lit n)) (Nat.pow 2 20) 1 = true;
}.

Definition float_of_Z (n : Z) : float :=
  if (n <? 0)%Z
  then PrimFloat.opp (PrimFloat.of_uint63 (Uint63.of_Z (- n)))
  else PrimFloat.of_uint63 (Uint63.of_Z n).

#[export] Instance float_arith : Arith float :=
  {| f_lit := float_of_Z; f_add := PrimFloat.add;
     f_mul := PrimFloat.mul; f_div := PrimFloat.div;
     f_is_zero := λ x, PrimFloat.eqb x 0;
     f_lit_nonzero :=
       @eq_refl bool true <: literals_nonzero (λ n, PrimFloat.eqb (float_of_Z n) 0)
                    (Nat.pow 2 20) 1 = true |}.

#[export] Instance Q_arith : Arith Q :=
  {| f_lit := inject_Z; f_add := Qplus; f_mul := Qmult; f_div := Qdiv;
     f_is_zero := λ x, Qeq_bool x 0;
     f_lit_nonzero :=
       @eq_refl bool true <: literals_nonzero (λ n, Qeq_bool (inject_Z n) 0)
                    (Nat.pow 2 20) 1 = true |}.

(** [data * factor]: the data is a number or an array. *)
Class Mul (F A : Type) := mul_by : A → F → A.

#[export] Instance number_mul {F} `{Arith F} : Mul F F := f_mul.

(** ** cfunits.py *)

Module cfunits.

Section Units.
Context {F : Type} `{Arith F}.

(** A rule table: groups of unit names, each with its factor, in the
    order of the dictionary. *)
Definition rules : Type := list (list string * F).

Definition PRESSURE_CONVERSION_RULES : rules :=
  [ (["Pa"; "pascal"], f_lit 1);
    (["hPa"; "hectopascal"; "hpascal"; "millibar"; "mbar"], f_lit 100);
    (["decibar"; "dbar"], f_lit 10000);
    (["bar"], f_lit 100000);
    (["atmosphere"; "atm"], f_lit 101325) ].

(** The arithmetic of one turn of the loop of [simple_conversion_factor],
    on the pair [(conversion_factor, seen)]. *)
Definition scan_rule (source_units target_units : string)
    (st : F * nat) (rule : list string * F) : F * nat :=
  let '(pressure_units, factor) := rule in
  let st :=
    if bool_decide (source_units ∈ pressure_units)
    then (f_div st.1 factor, S st.2) else st in
  if bool_decide (target_units ∈ pressure_units)
  then (f_mul st.1 factor, S st.2) else st.

Definition scan (source_units target_units : string) (rs : rules) : F * nat :=
  fold_left (scan_rule source_units target_units) rs (f_lit 1, 0).

(** One turn of the loop as it runs: [conversion_factor /= factor] raises
    [ZeroDivisionError] on a zero factor, and the loop ends there. *)
Definition loop_turn (source_units target_units : string)
    (st : F * nat) (rule : list string * F) : result (F * nat) :=
  if bool_decide (source_units ∈ rule.1) && f_is_zero rule.2
  then Raise ZeroDivisionError
  else Return (scan_rule source_units target_units st rule).

Fixpoint loop (source_units target_units : string) (rs : rules)
    (st : F * nat) : result (F * nat) :=
  match rs with
  | [] => Return st
  | rule :: rs' =>
      st' ← loop_turn source_units target_units st rule;
      loop source_units target_units rs' st'
  end.

Definition simple_conversion_factor
    (source_units target_units : string) (rs : rules) : result F :=
  '(conversion_factor, seen) ← loop source_units target_units rs (f_lit 1, 0);
  if bool_decide (seen ≠ 2)
  then Raise (ConversionError source_units target_units)
  else Return conversion_factor.

(** The loop [for rules in [...]: try: return ... except ConversionError:
    pass], followed by the final [raise]. *)
Fixpoint convert_with {A} `{Mul F A} (tables : list rules)
    (data : A) (target_units source_units : string) : result A :=
  match tables with
  | [] => Raise (ConversionError source_units target_units)
  | rs :: tables' =>
      match simple_conversion_factor target_units source_units rs with
      | Return factor => Return (mul_by data factor)
      | Raise (ConversionError _ _) =>
          convert_with tables' data target_units source_units
      | Raise e => Raise e
      end
  end.

Definition convert_units {A} `{Mul F A}
    (data : A) (target_units source_units : string) : result A :=
  if bool_decide (target_units = source_units) then Return data
  else convert_with [PRESSURE_CONVERSION_RULES] data target_units source_units.

(** [convert_units] raises nothing but [ConversionError]. *)
Definition are_convertible (source_units target_units : string) : bool :=
  match convert_units (f_lit 1) source_units target_units with
  | Return _ => true
  | Raise (ConversionError _ _) => false
  | Raise _ => true
  end.

(** The groups of a table that hold a unit name, and the number of group
    memberships of a source and a target unit over the whole table. *)
Definition unit_groups (units : string) (rs : rules) : rules :=
  List.filter (λ rule, bool_decide (units ∈ rule.1)) rs.

Definition membership_matches (source_units target_units : string)
    (rs : rules) : nat :=
  length (unit_groups source_units rs) + length (unit_groups target_units rs).

(** The unit names of the pressure table. *)
Definition pressure_units : list string :=
  concat PRESSURE_CONVERSION_RULES.*1.

(** A group that holds the source unit has a zero factor: the division of
    the loop raises. *)
Definition zero_division (source_units : string) (rs : rules) : bool :=
  existsb (λ rule, bool_decide (source_units ∈ rule.1) && f_is_zero rule.2) rs.

(** The product of the factors of the groups that hold a unit name: the
    factor of its group for a name of the pressure table, one for a name
    that no group holds. *)
Definition factor_of (units : string) (rs : rules) : F :=
  foldr (λ rule acc, if bool_decide (units ∈ rule.1) then f_mul rule.2 acc else acc)
    (f_lit 1) rs.

End Units.

(** A table over the rationals without a zero factor. *)
Definition nonzero_factors (rs : rules (F:=Q)) : Prop :=
  Forall (λ rule, ¬ (rule.2 == 0)%Q) rs.

End cfunits.

(** ** tests/test_10_cfunits.py *)

Module test_10_cfunits.

(** [test_are_convertible]: the conjunction of its two assertions. *)
Definition test_are_convertible {F : Type} `{Arith F} : bool :=
  cfunits.are_convertible "hPa" "Pa" && negb (cfunits.are_convertible "m" "Pa").

End test_10_cfunits.

(** ** The dataset library (xarray), as far as cfcoords.py uses it

    cfcoords.py works on the coordinates of a labelled dataset: it
    enumerates them, reads and writes their attributes, renames them, adds
    and scales them and swaps dimensions.  The arrays themselves are kept
    behind an interface. *)

Module xarray.

(** What the code asks of an array: its dimension names, its element count
    ([.size]), [str(.dtype)], the broadcasting sum [a + b], the product
    [a * factor] and the renaming of a dimension. *)
Class ArrayLike (F A : Type) := {
  arr_dims : A → list string;
  arr_size : A → nat;
  arr_dtype : A → string;
  arr_add : A → A → A;
  arr_mul : A → F → A;
  arr_rename : string → string → A → A;
}.

(** Renaming a dimension to its own name changes nothing. *)
Class ArrayLaws (F A : Type) `{ArrayLike F A} : Prop := {
  arr_rename_same : ∀ d a, arr_rename d d a = a;
}.

Section Dataset.
Context {F A : Type} `{ArrayLike F A}.

(** [keep_attrs]: the library option that decides whether the result of
    an arithmetic operation keeps the attributes of its first operand or
    has none. *)
Variable keep_attrs : bool.

(** A coordinate: an array and its attribute dictionary. *)
Record DataArray := {
  values : A;
  attrs : gmap string string;
}.

(** A dataset: its dimension names and its coordinates, in the order of
    the mapping [data.coords].  The datasets of the model have coordinates
    only, no data variables. *)
Record Dataset := {
  dims : list string;
  coords : list (string * DataArray);
}.

(** [a + b] and [a * factor] on coordinates. *)
Definition da_add (a b : DataArray) : DataArray :=
  {| values := arr_add (values a) (values b);
     attrs := if keep_attrs then attrs a else ∅ |}.

Definition da_mul (a : DataArray) (factor : F) : DataArray :=
  {| values := arr_mul (values a) factor;
     attrs := if keep_attrs then attrs a else ∅ |}.

(** [mapping[name]], [None] standing for the [KeyError]. *)
Fixpoint item {V} (name : string) (mapping : list (string * V)) : option V :=
  match mapping with
  | [] => None
  | (k, v) :: mapping' => if bool_decide (k = name) then Some v else item name mapping'
  end.

(** [mapping[name] = value]: a new key goes to the end.  The value of an
    existing key is replaced where the key stands, as in a dictionary; the
    library may move a coordinate that is assigned again to the end of
    [data.coords] instead, so that after such an assignment the names are
    known up to their order only. *)
Fixpoint set_item {V} (name : string) (value : V) (mapping : list (string * V))
    : list (string * V) :=
  match mapping with
  | [] => [(name, value)]
  | (k, v) :: mapping' =>
      if bool_decide (k = name) then (k, value) :: mapping'
      else (k, v) :: set_item name value mapping'
  end.

(** [data.coords[name]] *)
Definition get_coord (data : Dataset) (name : string) : result DataArray :=
  match item name (coords data) with
  | Some coord => Return coord
  | None => Raise (KeyError name)
  end.

(** [data.coords[name] = coord], in place: the dataset gains the
    dimensions of [coord] it did not have. *)
Definition set_coord (data : Dataset) (name : string) (coord : DataArray) : Dataset :=
  {| dims := dims data ++ filter (λ d, d ∉ dims data) (arr_dims (values coord));
     coords := set_item name coord (coords data) |}.

(** [data.coords[name].attrs[key] = value], in place. *)
Definition set_attr (data : Dataset) (name key value : string) : result Dataset :=
  coord ← get_coord data name;
  Return {| dims := dims data;
            coords := set_item name
              {| values := values coord; attrs := <[key:=value]> (attrs coord) |}
              (coords data) |}.

Definition rename_name (old new name : string) : string :=
  if bool_decide (name = old) then new else name.

(** The dataset with the coordinate and the dimension [old] renamed to
    [new], every coordinate in its place. *)
Definition renamed (data : Dataset) (old new : string) : Dataset :=
  {| dims := rename_name old new <$> dims data;
     coords := (λ nc : string * DataArray,
                 (rename_name old new nc.1,
                  {| values := arr_rename old new (values nc.2);
                     attrs := attrs nc.2 |})) <$> coords data |}.

(** The dimension names in use: those of the dataset and those of the
    arrays of its coordinates. *)
Definition dims_in_use (data : Dataset) : list string :=
  dims data
  ++ concat ((λ nc : string * DataArray, arr_dims (values nc.2)) <$> coords data).

(** [data.rename({old: new})] raises [ValueError] when [old] is neither a
    coordinate nor a dimension of the dataset, and when [new] is another
    name that is in use already, as a coordinate or as a dimension.  The
    model has no dimension sizes: a new name that is a dimension already is
    refused whatever its size. *)
Definition rename_refused (data : Dataset) (old new : string) : bool :=
  bool_decide (old ∉ (coords data).*1 ∧ old ∉ dims data)
  || bool_decide (new ≠ old)
     && bool_decide (new ∈ (coords data).*1 ∨ new ∈ dims_in_use data).

Definition rename (data : Dataset) (old new : string) : result Dataset :=
  if rename_refused data old new
  then Raise (ValueError (CannotRename old new))
  else Return (renamed data old new).

(** [data.swap_dims({old: new})]: [old] has to be a dimension of the
    dataset and [new] a coordinate along [old] alone. *)
Definition swap_dims (data : Dataset) (old new : string) : result Dataset :=
  if bool_decide (old ∉ dims data)
  then Raise (ValueError (NotAnExistingDimension old))
  else
    coord ← get_coord data new;
    if bool_decide (arr_dims (values coord) ≠ [old])
    then Raise (ValueError (NotAlongDimension new old))
    else Return
      {| dims := rename_name old new <$> dims data;
         coords := (λ nc : string * DataArray,
                     (nc.1, {| values := arr_rename old new (values nc.2);
                               attrs := attrs nc.2 |})) <$> coords data |}.

End Dataset.

Arguments DataArray A : clear implicits.
Arguments Dataset A : clear implicits.

End xarray.

(** ** cfcoords.py *)

Module cfcoords.
Import xarray.

Section Coords.
Context {F A : Type} `{Arith F} `{ArrayLike F A}.
Variable keep_attrs : bool.

#[local] Instance coord_mul : Mul F (DataArray A) := da_mul keep_attrs.

(** [COORD_MODEL]: per role, the overrides ['out_name'] and ['units']. *)
Definition COORD_MODEL : gmap string (gmap string string) := ∅.

Fixpoint match_values {V} (match_value_func : V → bool)
    (mapping : list (string * V)) : list string :=
  match mapping with
  | [] => []
  | (name, value) :: mapping' =>
      if match_value_func value
      then name :: match_values match_value_func mapping'
      else match_values match_value_func mapping'
  end.

(** The canonical name and unit of a role:
    [coord_model.get(cf_type, {}).get('out_name', default_out_name)] and
    [coord_model.get(cf_type, {}).get('units', default_units)]. *)
Definition out_name_of (coord_model : gmap string (gmap string string))
    (cf_type default_out_name : string) : string :=
  default default_out_name (default ∅ (coord_model !! cf_type) !! "out_name").

Definition units_of (coord_model : gmap string (gmap string string))
    (cf_type default_units : string) : string :=
  default default_units (default ∅ (coord_model !! cf_type) !! "units").

(** The loop [for name in data.coords: if name == out_name and name !=
    match: raise]. *)
Definition name_taken (out_name match_ : string) (names : list string) : bool :=
  existsb (λ name, bool_decide (name = out_name) && bool_decide (name ≠ match_)) names.

Definition translator (default_out_name default_units : string)
    (is_cf_type : DataArray A → bool) (cf_type : string) (data : Dataset A)
    (coord_model : gmap string (gmap string string)) : result (Dataset A) :=
  let out_name := out_name_of coord_model cf_type default_out_name in
  let units := units_of coord_model cf_type default_units in
  let matches := match_values is_cf_type (coords data) in
  if bool_decide (1 < length matches)
  then Raise (ValueError (MoreThanOneCoordinate cf_type))
  else match matches with
  | [] => Return data
  | match_ :: _ =>
      if name_taken out_name match_ (coords data).*1
      then Raise (ValueError (NonCompliantCoordinate cf_type))
      else
        data ← rename data match_ out_name;
        coord ← get_coord data out_name;
        match attrs coord !! "units" with
        | Some source_units =>
            converted ← cfunits.convert_units coord units source_units;
            let data := set_coord data out_name converted in
            set_attr data out_name "untis" units
        | None => Return data
        end
  end.

Definition VALID_LAT_UNITS : list string :=
  ["degrees_north"; "degree_north"; "degree_N"; "degrees_N"; "degreeN"; "degreesN"].

Definition is_latitude (coord : DataArray A) : bool :=
  match attrs coord !! "units" with
  | Some units => bool_decide (units ∈ VALID_LAT_UNITS)
  | None => false
  end.

Definition VALID_LON_UNITS : list string :=
  ["degrees_east"; "degree_east"; "degree_E"; "degrees_E"; "degreeE"; "degreesE"].

Definition is_longitude (coord : DataArray A) : bool :=
  match attrs coord !! "units" with
  | Some units => bool_decide (units ∈ VALID_LON_UNITS)
  | None => false
  end.

Definition is_forecast_reference_time (coord : DataArray A) : bool :=
  bool_decide (attrs coord !! "standard_name" = Some "forecast_reference_time").

Definition is_forecast_period (coord : DataArray A) : bool :=
  bool_decide (attrs coord !! "standard_name" = Some "forecast_period").

Definition is_valid_time (coord : DataArray A) : bool :=
  if bool_decide (attrs coord !! "standard_name" = Some "time") then true
  else if bool_decide (arr_dtype (values coord) = "datetime64[ns]")
          && bool_decide (attrs coord !! "standard_name" = None) then true
  else false.

Definition is_vertical_pressure (coord : DataArray A) : bool :=
  cfunits.are_convertible (default "" (attrs coord !! "units")) "Pa".

Definition is_realization (coord : DataArray A) : bool :=
  bool_decide (attrs coord !! "standard_name" = Some "realization").

(** A registered translator: [functools.partial(translator, out_name,
    units, is_cf_type)], still waiting for the role name, the dataset and
    the coordinate model. *)
Definition registered : Type :=
  string → Dataset A → gmap string (gmap string string) → result (Dataset A).

(** [TRANSLATORS], in the order of registration. *)
Definition TRANSLATORS : list (string * registered) :=
  [ ("latitude", translator "latitude" "degrees_north" is_latitude);
    ("longitude", translator "longitude" "degrees_east" is_longitude);
    ("forecast_reference_time",
      translator "time" "seconds since 1970-01-01T00:00:00+00:00"
        is_forecast_reference_time);
    ("forecast_period", translator "step" "h" is_forecast_period);
    ("valid_time",
      translator "valid_time" "seconds since 1970-01-01T00:00:00+00:00"
        is_valid_time);
    ("vertical_pressure", translator "level" "hPa" is_vertical_pressure);
    ("realization", translator "number" "1" is_realization) ].

Fixpoint translate (data : Dataset A)
    (coord_model : gmap string (gmap string string))
    (translators : list (string * registered)) : result (Dataset A) :=
  match translators with
  | [] => Return data
  | (cf_name, translator) :: translators' =>
      data ← translator cf_name data coord_model;
      translate data coord_model translators'
  end.

(** [ensure_valid_time_present] changes [data] in place: the result is
    the dataset as the call leaves it, with the three names. *)
Definition ensure_valid_time_present (data : Dataset A) (valid_time_name : string)
    : result (Dataset A * (string * string * string)) :=
  let valid_times := match_values is_valid_time (coords data) in
  let times := match_values is_forecast_reference_time (coords data) in
  let steps := match_values is_forecast_period (coords data) in
  match valid_times with
  | [] =>
      match times with
      | [] => Raise (ValueError NotEnoughInformation)
      | time :: _ =>
          let valid_time := valid_time_name in
          '(step, data) ←
            match steps with
            | step :: _ =>
                time_coord ← get_coord data time;
                step_coord ← get_coord data step;
                Return (step, set_coord data valid_time
                                (da_add keep_attrs time_coord step_coord))
            | [] =>
                time_coord ← get_coord data time;
                Return ("", set_coord data valid_time time_coord)
            end;
          data ← set_attr data valid_time "standard_name" "time";
          Return (data, (valid_time, time, step))
      end
  | valid_time :: _ => Return (data, (valid_time, "", ""))
  end.

Definition ensure_valid_time (data : Dataset A) : result (Dataset A) :=
  '(data, (valid_time, time, step)) ← ensure_valid_time_present data "valid_time";
  if bool_decide (valid_time ∉ dims data) then
    time_coord ← get_coord data time;
    valid_time_coord ← get_coord data valid_time;
    if bool_decide (arr_size (values time_coord) = arr_size (values valid_time_coord))
    then swap_dims data time valid_time
    else
      step_coord ← get_coord data step;
      step_coord' ← get_coord data step;
      if bool_decide (arr_size (values step_coord) = arr_size (values step_coord'))
      then swap_dims data step valid_time
      else Return data
  else Return data.

End Coords.

End cfcoords.

(** ** A labelled array

    An array of numbers with named axes, read at a list of indices (one per
    axis).  It is the array of the examples below. *)

Module ndarray.

Section NdArray.
Context {F : Type} `{Arith F}.

Record NdArray := {
  nd_axes : list (string * nat);
  nd_dtype : string;
  nd_at : list nat → F;
}.

(** The place of axis [d] among [ds]. *)
Fixpoint axis_index (d : string) (ds : list string) : nat :=
  match ds with
  | [] => 0
  | d' :: ds' => if bool_decide (d' = d) then 0 else S (axis_index d ds')
  end.

(** The sum broadcasts by axis name: the axes of [a], then those of [b]
    that [a] lacks; each operand is read at its own axes.  The sum has the
    dtype of [a] (a time plus a duration is a time), a product with a float
    is a float. *)
Definition nd_add (a b : NdArray) : NdArray :=
  let axes := nd_axes a ++ filter (λ ax, ax.1 ∉ (nd_axes a).*1) (nd_axes b) in
  {| nd_axes := axes;
     nd_dtype := nd_dtype a;
     nd_at := λ ix,
       f_add (nd_at a (take (length (nd_axes a)) ix))
             (nd_at b ((λ d, default 0 (ix !! axis_index d axes.*1))
                         <$> (nd_axes b).*1)) |}.

Definition nd_mul (a : NdArray) (factor : F) : NdArray :=
  {| nd_axes := nd_axes a;
     nd_dtype := "float64";
     nd_at := λ ix, f_mul (nd_at a ix) factor |}.

Definition nd_rename (old new : string) (a : NdArray) : NdArray :=
  {| nd_axes := prod_map (xarray.rename_name old new) id <$> nd_axes a;
     nd_dtype := nd_dtype a;
     nd_at := nd_at a |}.

Definition nd_size (a : NdArray) : nat := foldr Nat.mul 1 (nd_axes a).*2.

#[export] Instance nd_array_like : xarray.ArrayLike F NdArray := {|
  xarray.arr_dims a := (nd_axes a).*1;
  xarray.arr_size := nd_size;
  xarray.arr_dtype := nd_dtype;
  xarray.arr_add := nd_add;
  xarray.arr_mul := nd_mul;
  xarray.arr_rename := nd_rename;
|}.

(** A one-dimensional array along [dim]. *)
Definition vector (dim dtype : string) (xs : list F) : NdArray :=
  {| nd_axes := [(dim, length xs)];
     nd_dtype := dtype;
     nd_at := λ ix, default (f_lit 0) (xs !! default 0 (ix !! 0)) |}.

End NdArray.

Arguments NdArray F : clear implicits.

End ndarray.

(** ** Datasets of the examples *)

Module examples.
Import xarray ndarray.

Definition coordinate (dim dtype : string) (xs : list float)
    (attributes : list (string * string)) : DataArray (NdArray float) :=
  {| values := vector dim dtype xs; attrs := list_to_map attributes |}.

(** A latitude axis in degrees north, spelt ['degree_north']. *)
Definition lat_dataset : Dataset (NdArray float) :=
  {| dims := ["lat"];
     coords := [("lat", coordinate "lat" "float64" [45%float; 46%float]
                          [("units", "degree_north")])] |}.

(** Two pressure levels in pascal. *)
Definition lev_dataset : Dataset (NdArray float) :=
  {| dims := ["lev"];
     coords := [("lev", coordinate "lev" "float64" [100000%float; 85000%float]
                          [("units", "Pa")])] |}.

(** Two reference times and three forecast periods. *)
Definition forecast_dataset : Dataset (NdArray float) :=
  {| dims := ["time"; "step"];
     coords :=
       [("time", coordinate "time" "int64" [0%float; 86400%float]
                   [("standard_name", "forecast_reference_time")]);
        ("step", coordinate "step" "int64" [0%float; 21600%float; 43200%float]
                   [("standard_name", "forecast_period")])] |}.

(** Two latitude axes. *)
Definition two_latitudes_dataset : Dataset (NdArray float) :=
  {| dims := ["lat"; "y"];
     coords :=
       [("lat", coordinate "lat" "float64" [45%float; 46%float]
                  [("units", "degrees_north")]);
        ("y", coordinate "y" "float64" [10%float; 20%float; 30%float]
                [("units", "degree_N")])] |}.

(** A latitude axis that has the canonical name and unit already. *)
Definition latitude_dataset : Dataset (NdArray float) :=
  {| dims := ["latitude"];
     coords := [("latitude", coordinate "latitude" "float64" [45%float; 46%float]
                               [("units", "degrees_north")])] |}.

(** A latitude axis that has the canonical name and the unit spelt
    ['degree_north']. *)
Definition latitude_degree_north_dataset : Dataset (NdArray float) :=
  {| dims := ["latitude"];
     coords := [("latitude", coordinate "latitude" "float64" [45%float; 46%float]
                               [("units", "degree_north")])] |}.

(** Two longitude axes next to a latitude axis spelt ['degree_north']. *)
Definition two_longitudes_dataset : Dataset (NdArray float) :=
  {| dims := ["lat"; "lon"; "x"];
     coords :=
       [("lat", coordinate "lat" "float64" [45%float; 46%float]
                  [("units", "degree_north")]);
        ("lon", coordinate "lon" "float64" [7%float; 8%float]
                  [("units", "degrees_east")]);
        ("x", coordinate "x" "float64" [10%float; 20%float; 30%float]
                [("units", "degree_E")])] |}.

(** Two longitude axes next to a latitude axis in the canonical unit. *)
Definition two_longitudes_degrees_north_dataset : Dataset (NdArray float) :=
  {| dims := ["lat"; "lon"; "x"];
     coords :=
       [("lat", coordinate "lat" "float64" [45%float; 46%float]
                  [("units", "degrees_north")]);
        ("lon", coordinate "lon" "float64" [7%float; 8%float]
                  [("units", "degrees_east")]);
        ("x", coordinate "x" "float64" [10%float; 20%float; 30%float]
                [("units", "degree_E")])] |}.

(** A forecast with its valid time along the reference time. *)
Definition valid_time_dataset : Dataset (NdArray float) :=
  {| dims := ["time"; "step"];
     coords :=
       [("time", coordinate "time" "int64" [0%float; 86400%float]
                   [("standard_name", "forecast_reference_time")]);
        ("step", coordinate "step" "int64" [0%float; 21600%float; 43200%float]
                   [("standard_name", "forecast_period")]);
        ("valid_time", coordinate "time" "int64" [21600%float; 108000%float]
                         [("standard_name", "time")])] |}.

(** A forecast whose reference time has the empty name. *)
Definition unnamed_time_dataset : Dataset (NdArray float) :=
  {| dims := ["time"; "step"];
     coords :=
       [("", coordinate "time" "int64" [0%float; 86400%float]
               [("standard_name", "forecast_reference_time")]);
        ("step", coordinate "step" "int64" [0%float; 21600%float; 43200%float]
                   [("standard_name", "forecast_period")])] |}.

End examples.

Module more_examples.
Import xarray ndarray examples.

(** Three ensemble members, without a unit. *)
Definition ensemble_dataset : Dataset (NdArray float) :=
  {| dims := ["ens"];
     coords := [("ens", coordinate "ens" "int64" [0%float; 1%float; 2%float]
                          [("standard_name", "realization")])] |}.

(** A plain axis without attributes. *)
Definition plain_dataset : Dataset (NdArray float) :=
  {| dims := ["x"];
     coords := [("x", coordinate "x" "float64" [1%float; 2%float] [])] |}.

(** Two reference times and no forecast period. *)
Definition analysis_dataset : Dataset (NdArray float) :=
  {| dims := ["time"];
     coords :=
       [("time", coordinate "time" "int64" [0%float; 86400%float]
                   [("standard_name", "forecast_reference_time")])] |}.

(** What the calls leave of the datasets. *)
Definition derived_forecast_dataset : Dataset (NdArray float) :=
  match cfcoords.ensure_valid_time_present false forecast_dataset "valid_time" with
  | Return (data, _) => data
  | Raise _ => forecast_dataset
  end.

Definition derived_analysis_dataset : Dataset (NdArray float) :=
  match cfcoords.ensure_valid_time_present false analysis_dataset "valid_time" with
  | Return (data, _) => data
  | Raise _ => analysis_dataset
  end.

Definition translated_lev_dataset : Dataset (NdArray float) :=
  match cfcoords.translator false "level" "hPa" cfcoords.is_vertical_pressure
          "vertical_pressure" lev_dataset cfcoords.COORD_MODEL with
  | Return data => data
  | Raise _ => lev_dataset
  end.

(** A coordinate with the standard name ['time'] in place of its own. *)
Definition tagged {A : Type} (coord : DataArray A) : DataArray A :=
  {| values := values coord;
     attrs := <["standard_name":="time"]> (attrs coord) |}.

End more_examples.

(** * Properties *)

(** ** Unit conversion *)

Module cfunits_facts.
Import cfunits.

Section Matches.
Context {F : Type} `{Arith F}.

Lemma scan_seen_from s t (rs : rules (F:=F)) st :
  (fold_left (scan_rule s t) rs st).2 = st.2 + membership_matches s t rs.
Proof.
  revert st. induction rs as [|[units factor] rs IH]; intros st; simpl.
  - unfold membership_matches. simpl. lia.
  - rewrite IH. unfold membership_matches, unit_groups.
    simpl.
    repeat case_bool_decide; simpl; lia.
Qed.

Lemma scan_seen s t (rs : rules (F:=F)) :
  (scan s t rs).2 = membership_matches s t rs.
Proof. unfold scan. by rewrite scan_seen_from. Qed.

(** The loop raises at the first zero factor of a group of the source
    unit, and is the fold of its arithmetic over the table otherwise. *)
Lemma loop_zero_division s t (rs : rules (F:=F)) st :
  loop s t rs st =
    if zero_division s rs then Raise ZeroDivisionError
    else Return (fold_left (scan_rule s t) rs st).
Proof.
  revert st. induction rs as [|rule rs IH]; intros st; [done|].
  simpl. unfold loop_turn.
  destruct (bool_decide (s ∈ rule.1) && f_is_zero rule.2); simpl; [done|].
  apply IH.
Qed.

Lemma loop_scan s t (rs : rules (F:=F)) :
  zero_division s rs = false →
  loop s t rs (f_lit 1, 0) = Return (scan s t rs).
Proof. intros Hz. by rewrite loop_zero_division, Hz. Qed.

Lemma literals_nonzero_spec (is_zero : Z → bool) (fuel : nat) (n m : Z) :
  literals_nonzero is_zero fuel n = true →
  (n ≤ m < n + Z.of_nat fuel)%Z →
  is_zero m = false.
Proof.
  revert n. induction fuel as [|fuel IH]; intros n Hall Hm; [lia|].
  simpl in Hall. destruct (is_zero n) eqn:Hn; [discriminate|].
  destruct (Z.eq_dec n m) as [<-|Hne]; [exact Hn|].
  apply (IH (n + 1)%Z); [exact Hall|lia].
Qed.

(** The literal of a positive integer up to 2^20 is not zero. *)
Lemma f_lit_not_zero (n : Z) :
  (0 < n ≤ 1048576)%Z → f_is_zero (f_lit (F:=F) n) = false.
Proof.
  intros Hn.
  apply (literals_nonzero_spec (λ n, f_is_zero (f_lit (F:=F) n))
           (Nat.pow 2 20) 1%Z).
  - apply f_lit_nonzero.
  - rewrite Nat2Z.inj_pow. simpl. lia.
Qed.

Lemma pressure_no_zero_division s :
  zero_division (F:=F) s PRESSURE_CONVERSION_RULES = false.
Proof.
  unfold zero_division. simpl.
  rewrite !f_lit_not_zero by lia. by rewrite !andb_false_r.
Qed.

Lemma simple_conversion_factor_zero_division s t (rs : rules (F:=F)) :
  zero_division s rs = true →
  simple_conversion_factor s t rs = Raise ZeroDivisionError.
Proof.
  intros Hz. unfold simple_conversion_factor.
  by rewrite loop_zero_division, Hz.
Qed.

Lemma simple_conversion_factor_raise s t (rs : rules (F:=F)) :
  zero_division s rs = false →
  membership_matches s t rs ≠ 2 →
  simple_conversion_factor s t rs = Raise (ConversionError s t).
Proof.
  intros Hz Hm. unfold simple_conversion_factor. rewrite loop_scan by done.
  pose proof (scan_seen s t rs) as Hs.
  destruct (scan s t rs) as [cf seen]. simpl in Hs. subst seen. simpl.
  by rewrite bool_decide_eq_true_2.
Qed.

Lemma simple_conversion_factor_return s t (rs : rules (F:=F)) :
  zero_division s rs = false →
  membership_matches s t rs = 2 →
  simple_conversion_factor s t rs = Return (scan s t rs).1.
Proof.
  intros Hz Hm. unfold simple_conversion_factor. rewrite loop_scan by done.
  pose proof (scan_seen s t rs) as Hs.
  destruct (scan s t rs) as [cf seen]. simpl in *. subst seen.
  rewrite bool_decide_eq_false_2; [done|]. intros Hne. by apply Hne.
Qed.

Lemma membership_matches_comm s t (rs : rules (F:=F)) :
  membership_matches s t rs = membership_matches t s rs.
Proof. unfold membership_matches. lia. Qed.

Lemma unit_groups_unknown units (rs : rules (F:=F)) :
  units ∉ concat rs.*1 → unit_groups units rs = [].
Proof.
  induction rs as [|[us f] rs IH]; [done|].
  rewrite fmap_cons, concat_cons, elem_of_app. simpl. intros Hn.
  unfold unit_groups. simpl.
  case_bool_decide; [tauto|]. apply IH. tauto.
Qed.

Lemma pressure_unit_groups_le units :
  length (unit_groups units PRESSURE_CONVERSION_RULES) ≤ 1.
Proof.
  destruct (decide (units ∈ pressure_units)) as [Hin|Hout].
  - unfold pressure_units in Hin. simpl in Hin.
    repeat (apply elem_of_cons in Hin as [->|Hin]; [vm_compute; lia|]).
    by apply elem_of_nil in Hin.
  - rewrite unit_groups_unknown; [simpl; lia|done].
Qed.

Lemma simple_conversion_factor_cases s t (rs : rules (F:=F)) :
  (zero_division s rs = true ∧
   simple_conversion_factor s t rs = Raise ZeroDivisionError) ∨
  (zero_division s rs = false ∧ membership_matches s t rs ≠ 2 ∧
   simple_conversion_factor s t rs = Raise (ConversionError s t)) ∨
  (zero_division s rs = false ∧ membership_matches s t rs = 2 ∧
   simple_conversion_factor s t rs = Return (scan s t rs).1).
Proof.
  destruct (zero_division s rs) eqn:Hz.
  { left. split; [done|]. by apply simple_conversion_factor_zero_division. }
  right.
  destruct (decide (membership_matches s t rs = 2)) as [Heq|Hne].
  - right. repeat split; [done|]. by apply simple_conversion_factor_return.
  - left. repeat split; [done|]. by apply simple_conversion_factor_raise.
Qed.

(** [convert_units] on two different names. *)
Lemma convert_units_raise {A} `{Mul F A} (data : A) target source :
  target ≠ source →
  membership_matches target source PRESSURE_CONVERSION_RULES ≠ 2 →
  convert_units data target source = Raise (ConversionError source target).
Proof.
  intros Hne Hm. unfold convert_units.
  rewrite bool_decide_eq_false_2 by done. simpl.
  by rewrite simple_conversion_factor_raise
    by (try done; apply pressure_no_zero_division).
Qed.

Lemma convert_units_return {A} `{Mul F A} (data : A) target source :
  target ≠ source →
  membership_matches target source PRESSURE_CONVERSION_RULES = 2 →
  convert_units data target source =
    Return (mul_by data (scan target source PRESSURE_CONVERSION_RULES).1).
Proof.
  intros Hne Hm. unfold convert_units.
  rewrite bool_decide_eq_false_2 by done. simpl.
  by rewrite simple_conversion_factor_return
    by (try done; apply pressure_no_zero_division).
Qed.

Lemma convert_units_same {A} `{Mul F A} (data : A) units :
  convert_units data units units = Return data.
Proof. unfold convert_units. by rewrite bool_decide_eq_true_2. Qed.

Lemma are_convertible_true a b :
  are_convertible a b = true ↔
  a = b ∨ membership_matches a b PRESSURE_CONVERSION_RULES = 2.
Proof.
  unfold are_convertible.
  destruct (decide (a = b)) as [->|Hne].
  - rewrite convert_units_same. naive_solver.
  - destruct (decide (membership_matches a b PRESSURE_CONVERSION_RULES = 2)).
    + rewrite convert_units_return by done. naive_solver.
    + rewrite convert_units_raise by done. naive_solver.
Qed.

End Matches.

(** C7, on a table with a zero factor: over the table [{('x',): 0.}] the
    memberships of ['x'] and ['q'] add up to one, and the division by the
    factor of the group of ['x'] raises [ZeroDivisionError] before the count
    is looked at. *)
Lemma zero_factor_counterexample :
  membership_matches (F:=float) "x" "q" [(["x"], 0%float)] ≠ 2 ∧
  simple_conversion_factor (F:=float) "x" "q" [(["x"], 0%float)]
    = Raise ZeroDivisionError ∧
  simple_conversion_factor (F:=float) "x" "q" [(["x"], 0%float)]
    ≠ Raise (ConversionError "x" "q").
Proof.
  split; [vm_compute; lia|]. split; [vm_compute; reflexivity|].
  vm_compute. discriminate.
Qed.

(** C7: [simple_conversion_factor] raises [ZeroDivisionError] exactly when a
    group of its source unit has a zero factor, and [ConversionError] exactly
    when no such group has one and the group memberships of its two unit
    names over the whole table do not add up to two.  No factor of the
    pressure table is zero.  Hence, for two different names of which one is
    in no group of the pressure table, [are_convertible] is false and
    [convert_units] raises [ConversionError] whatever the data. *)
Theorem conversion_error_iff_matches_differ_from_two
    {F : Type} `{Arith F} (a b : string) :
  (∀ rs : rules,
     simple_conversion_factor a b rs = Raise ZeroDivisionError
     ↔ zero_division a rs = true) ∧
  (∀ rs : rules,
     simple_conversion_factor a b rs = Raise (ConversionError a b)
     ↔ zero_division a rs = false ∧ membership_matches a b rs ≠ 2) ∧
  zero_division a PRESSURE_CONVERSION_RULES = false ∧
  (a ≠ b →
   unit_groups a PRESSURE_CONVERSION_RULES = [] ∨
   unit_groups b PRESSURE_CONVERSION_RULES = [] →
   are_convertible a b = false ∧
   ∀ (A : Type) (M : Mul F A) (data : A),
     convert_units data a b = Raise (ConversionError b a)).
Proof.
  split; [|split; [|split]].
  - intros rs.
    destruct (simple_conversion_factor_cases a b rs)
      as [[Hz ->]|[(Hz & Hm & ->)|(Hz & Hm & ->)]]; rewrite Hz; naive_solver.
  - intros rs.
    destruct (simple_conversion_factor_cases a b rs)
      as [[Hz ->]|[(Hz & Hm & ->)|(Hz & Hm & ->)]]; rewrite Hz; naive_solver.
  - apply pressure_no_zero_division.
  - intros Hne Hnone.
    assert (membership_matches a b PRESSURE_CONVERSION_RULES ≠ 2) as Hm.
    { unfold membership_matches.
      pose proof (pressure_unit_groups_le a). pose proof (pressure_unit_groups_le b).
      destruct Hnone as [Hn|Hn]; rewrite Hn in *; simpl in *; lia. }
    split.
    + destruct (are_convertible a b) eqn:Hc; [|done].
      apply are_convertible_true in Hc. naive_solver.
    + intros A M data. by apply convert_units_raise.
Qed.

(** C7 at ['m'] and ['Pa']. *)
Lemma conversion_error_m_Pa :
  ("m" ≠ "Pa" ∧
   unit_groups (F:=float) "m" PRESSURE_CONVERSION_RULES = []) ∧
  are_convertible (F:=float) "m" "Pa" = false ∧
  ∀ data : float, convert_units data "m" "Pa" = Raise (ConversionError "Pa" "m").
Proof.
  assert ("m" ≠ "Pa") as Hne by discriminate.
  assert (unit_groups (F:=float) "m" PRESSURE_CONVERSION_RULES = []) as Hn
    by reflexivity.
  split; [done|].
  destruct (conversion_error_iff_matches_differ_from_two (F:=float) "m" "Pa")
    as (_ & _ & _ & Hc).
  destruct (Hc Hne (or_introl Hn)) as [Hf Hr].
  split; [exact Hf|]. intros data. apply (Hr float _ data).
Defined.

(** C5: one pascal is 0.01 hPa and one hPa is 100 Pa.  The factor comes from
    the pressure table: the first unit name given to
    [simple_conversion_factor] (its source) divides by the factor of its
    group, the second (its target) multiplies by the factor of its group;
    [convert_units] hands over its target unit as the first and its source
    unit as the second. *)
Theorem convert_units_hPa_Pa :
  convert_units (F:=float) 1%float "hPa" "Pa" = Return 0.01%float ∧
  convert_units (F:=float) 1%float "Pa" "hPa" = Return 100%float ∧
  (∀ (F : Type) (Ar : Arith F),
     simple_conversion_factor "hPa" "Pa" PRESSURE_CONVERSION_RULES
       = Return (f_div (f_mul (f_lit 1) (f_lit 1)) (f_lit 100)) ∧
     simple_conversion_factor "Pa" "hPa" PRESSURE_CONVERSION_RULES
       = Return (f_mul (f_div (f_lit 1) (f_lit 1)) (f_lit 100)) ∧
     ∀ data : F,
       convert_units data "hPa" "Pa"
         = Return (f_mul data (f_div (f_mul (f_lit 1) (f_lit 1)) (f_lit 100))) ∧
       convert_units data "Pa" "hPa"
         = Return (f_mul data (f_mul (f_div (f_lit 1) (f_lit 1)) (f_lit 100)))).
Proof.
  split; [vm_compute; reflexivity|].
  split; [vm_compute; reflexivity|].
  intros F Ar.
  assert (simple_conversion_factor (F:=F) "hPa" "Pa" PRESSURE_CONVERSION_RULES
            = Return (f_div (f_mul (f_lit 1) (f_lit 1)) (f_lit 100))) as Hdown.
  { by rewrite simple_conversion_factor_return
      by (try reflexivity; apply pressure_no_zero_division). }
  assert (simple_conversion_factor (F:=F) "Pa" "hPa" PRESSURE_CONVERSION_RULES
            = Return (f_mul (f_div (f_lit 1) (f_lit 1)) (f_lit 100))) as Hup.
  { by rewrite simple_conversion_factor_return
      by (try reflexivity; apply pressure_no_zero_division). }
  split; [exact Hdown|]. split; [exact Hup|].
  intros data. split.
  - by rewrite convert_units_return by (try done; reflexivity).
  - by rewrite convert_units_return by (try done; reflexivity).
Qed.

(** C6, in binary64: 7 Pa converted to hPa and back is not 7 Pa. *)
Lemma round_trip_binary64_counterexample :
  are_convertible (F:=float) "Pa" "hPa" = true ∧
  (y ← convert_units (F:=float) 7%float "hPa" "Pa"; convert_units y "Pa" "hPa")
    = Return 7.0000000000000009%float ∧
  PrimFloat.eqb 7.0000000000000009%float 7%float = false.
Proof. repeat split; vm_compute; reflexivity. Qed.

Section Exact.
Local Open Scope Q_scope.

Lemma scan_rule_inverse s t (st st' : Q * nat) (rule : list string * Q) :
  ¬ rule.2 == 0 →
  st.1 * st'.1 == 1 →
  (scan_rule s t st rule).1 * (scan_rule t s st' rule).1 == 1.
Proof.
  destruct rule as [units factor], st as [c n], st' as [c' n'].
  unfold scan_rule. simpl. intros Hf Hc.
  repeat case_bool_decide; simpl; rewrite <- Hc; field; done.
Qed.

Lemma scan_inverse_from s t (rs : rules (F:=Q)) (st st' : Q * nat) :
  nonzero_factors rs →
  st.1 * st'.1 == 1 →
  (fold_left (scan_rule s t) rs st).1 * (fold_left (scan_rule t s) rs st').1 == 1.
Proof.
  intros Hnz. revert st st'.
  induction Hnz as [|rule rs Hf Hnz IH]; intros st st' Hc; simpl; [done|].
  apply IH. by apply scan_rule_inverse.
Qed.

Lemma pressure_nonzero_factors : nonzero_factors PRESSURE_CONVERSION_RULES.
Proof. repeat constructor; simpl; discriminate. Qed.

Lemma pressure_scan_inverse s t :
  (scan s t PRESSURE_CONVERSION_RULES).1 * (scan t s PRESSURE_CONVERSION_RULES).1 == 1.
Proof.
  unfold scan. apply scan_inverse_from; [apply pressure_nonzero_factors|].
  simpl. reflexivity.
Qed.

End Exact.

(** C6, over exact (rational) arithmetic: for two unit names between
    which conversion succeeds, a value converted from [a] to [b] and back is
    the value itself. *)
Theorem round_trip_exact (a b : string) (x : Q) :
  are_convertible (F:=Q) a b = true →
  ∃ y z : Q,
    convert_units x b a = Return y ∧
    convert_units y a b = Return z ∧
    (z == x)%Q.
Proof.
  intros Hc. apply are_convertible_true in Hc as [->|Hm].
  - exists x, x. rewrite !convert_units_same. by repeat split.
  - destruct (decide (a = b)) as [->|Hne].
    { exists x, x. rewrite !convert_units_same. by repeat split. }
    eexists _, _.
    rewrite (convert_units_return x b a)
      by (try done; by rewrite membership_matches_comm).
    split; [reflexivity|].
    rewrite convert_units_return by done.
    split; [reflexivity|].
    unfold mul_by, number_mul. simpl.
    rewrite <- Qmult_assoc.
    rewrite (Qmult_comm (scan b a _).1), pressure_scan_inverse.
    apply Qmult_1_r.
Qed.

(** C6 over the rationals, at 7 Pa. *)
Lemma round_trip_exact_7 :
  are_convertible (F:=Q) "Pa" "hPa" = true ∧
  ∃ y z : Q,
    convert_units (7 # 1)%Q "hPa" "Pa" = Return y ∧
    convert_units y "Pa" "hPa" = Return z ∧
    (z == 7 # 1)%Q.
Proof.
  split; [reflexivity|].
  apply (round_trip_exact "Pa" "hPa" (7 # 1)%Q). reflexivity.
Defined.

End cfunits_facts.

(** ** The labelled array *)

Module ndarray_facts.
Import xarray ndarray.

Lemma nd_rename_same {F : Type} (d : string) (a : NdArray F) : nd_rename d d a = a.
Proof.
  destruct a as [axes dt f]. unfold nd_rename. simpl. f_equal.
  induction axes as [|[d' n] axes IH]; [done|].
  rewrite fmap_cons, IH. unfold prod_map, xarray.rename_name. simpl.
  case_bool_decide; by subst.
Qed.

#[export] Instance nd_array_laws {F : Type} `{Arith F} : ArrayLaws F (NdArray F).
Proof. split. apply nd_rename_same. Qed.

Section Sums.
Context {F : Type} `{Arith F}.

(** Two vectors along the same axis are added element by element. *)
Lemma vector_sum_same (d t1 t2 : string) (xs ys : list F) (i : nat) :
  nd_axes (nd_add (vector d t1 xs) (vector d t2 ys)) = [(d, length xs)] ∧
  nd_at (nd_add (vector d t1 xs) (vector d t2 ys)) [i]
    = f_add (nd_at (vector d t1 xs) [i]) (nd_at (vector d t2 ys) [i]).
Proof.
  unfold nd_add, vector. simpl. split.
  - rewrite filter_cons_False; [done|]. simpl. intros Hn. apply Hn. by left.
  - by rewrite bool_decide_eq_true_2.
Qed.

(** Two vectors along different axes are added into a table: the element
    at [i], [j] is the sum of the elements at [i] and at [j]. *)
Lemma vector_sum_outer (d1 d2 t1 t2 : string) (xs ys : list F) (i j : nat) :
  d1 ≠ d2 →
  nd_axes (nd_add (vector d1 t1 xs) (vector d2 t2 ys))
    = [(d1, length xs); (d2, length ys)] ∧
  nd_at (nd_add (vector d1 t1 xs) (vector d2 t2 ys)) [i; j]
    = f_add (nd_at (vector d1 t1 xs) [i]) (nd_at (vector d2 t2 ys) [j]).
Proof.
  intros Hne. unfold nd_add, vector. simpl. split.
  - rewrite filter_cons_True; [done|]. simpl. intros Hin.
    apply list_elem_of_singleton in Hin. congruence.
  - rewrite filter_cons_True.
    + simpl. rewrite bool_decide_eq_false_2 by done.
      by rewrite bool_decide_eq_true_2.
    + simpl. intros Hin. apply list_elem_of_singleton in Hin. congruence.
Qed.

End Sums.

End ndarray_facts.

(** ** Coordinate translation *)

Module cfcoords_facts.
Import xarray cfcoords cfunits_facts.

Section Mappings.
Context {V : Type}.
Implicit Types (mapping : list (string * V)) (name : string).

Lemma item_set_item name (value : V) mapping :
  item name (set_item name value mapping) = Some value.
Proof.
  induction mapping as [|[k v] mapping IH]; simpl.
  - by rewrite bool_decide_eq_true_2.
  - case_bool_decide as Hk; simpl.
    + by rewrite bool_decide_eq_true_2.
    + by rewrite bool_decide_eq_false_2.
Qed.

Lemma item_is_Some name mapping :
  name ∈ mapping.*1 ↔ is_Some (item name mapping).
Proof.
  induction mapping as [|[k v] mapping IH]; simpl.
  - split; [by intros ?%elem_of_nil|by intros [? ?]].
  - rewrite elem_of_cons. case_bool_decide as Hk.
    + split; [eauto|auto].
    + rewrite <- IH. naive_solver.
Qed.

Lemma item_None name mapping :
  name ∉ mapping.*1 ↔ item name mapping = None.
Proof. rewrite item_is_Some, eq_None_not_Some. done. Qed.

Lemma match_values_names (f : V → bool) mapping name :
  name ∈ match_values f mapping → name ∈ mapping.*1.
Proof.
  induction mapping as [|[k v] mapping IH]; simpl; [done|].
  destruct (f v); rewrite ?elem_of_cons; naive_solver.
Qed.

Lemma match_values_first (f : V → bool) mapping name names :
  match_values f mapping = name :: names → is_Some (item name mapping).
Proof.
  intros Hm. apply item_is_Some, (match_values_names f).
  rewrite Hm. by left.
Qed.

Lemma name_taken_spec out_name match_ (names : list string) :
  name_taken out_name match_ names = true ↔
  ∃ name', name' ∈ names ∧ name' = out_name ∧ name' ≠ match_.
Proof.
  unfold name_taken. rewrite existsb_exists. split.
  - intros (n & Hin%list_elem_of_In & Hn). apply andb_true_iff in Hn as [H1 H2].
    apply bool_decide_eq_true in H1, H2. eauto.
  - intros (n & Hin%list_elem_of_In & H1 & H2). exists n. split; [done|].
    by rewrite !bool_decide_eq_true_2.
Qed.

End Mappings.

Section Roles.
Context {F A : Type} `{Arith F} `{ArrayLike F A}.
Variable keep_attrs : bool.
Implicit Types (data : Dataset A) (coord : DataArray A).
Implicit Types (coord_model : gmap string (gmap string string)).

Lemma rename_name_same old name : rename_name old old name = name.
Proof. unfold rename_name. case_bool_decide; by subst. Qed.

Lemma renamed_same `{!ArrayLaws F A} data name : renamed data name name = data.
Proof.
  destruct data as [ds cs]. unfold renamed. simpl. f_equal.
  - induction ds as [|d ds IH]; [done|].
    by rewrite fmap_cons, IH, rename_name_same.
  - induction cs as [|[k [v a]] cs IH]; [done|].
    rewrite fmap_cons, IH. simpl.
    by rewrite rename_name_same, arr_rename_same.
Qed.

(** A coordinate can be renamed to its own name. *)
Lemma rename_refused_same data name :
  name ∈ (coords data).*1 → rename_refused data name name = false.
Proof.
  intros Hin. unfold rename_refused.
  rewrite bool_decide_eq_false_2 by tauto.
  by rewrite (bool_decide_eq_false_2 (name ≠ name)) by tauto.
Qed.

Lemma rename_same `{!ArrayLaws F A} data name :
  name ∈ (coords data).*1 → rename data name name = Return data.
Proof.
  intros Hin. unfold rename.
  by rewrite rename_refused_same, renamed_same.
Qed.

Lemma rename_outcome data old new :
  rename data old new =
    if rename_refused data old new
    then Raise (ValueError (CannotRename old new))
    else Return (renamed data old new).
Proof. done. Qed.

Lemma get_coord_Return data name :
  name ∈ (coords data).*1 → ∃ coord, get_coord data name = Return coord.
Proof.
  intros [coord Hc]%item_is_Some. exists coord. unfold get_coord. by rewrite Hc.
Qed.

Lemma get_coord_set_coord data name coord :
  get_coord (set_coord data name coord) name = Return coord.
Proof. unfold get_coord, set_coord. simpl. by rewrite item_set_item. Qed.

Lemma set_attr_Return data name key value coord :
  get_coord data name = Return coord →
  ∃ data',
    set_attr data name key value = Return data' ∧
    dims data' = dims data ∧
    get_coord data' name =
      Return {| values := values coord; attrs := <[key:=value]> (attrs coord) |}.
Proof.
  intros Hc. unfold set_attr. rewrite Hc. simpl.
  eexists. split; [reflexivity|]. split; [done|].
  unfold get_coord. simpl. by rewrite item_set_item.
Qed.

Lemma get_coord_rename data old new :
  old ∈ (coords data).*1 →
  ∃ coord, get_coord (renamed data old new) new = Return coord.
Proof.
  intros Hin. apply get_coord_Return. unfold renamed. simpl.
  rewrite <- list_fmap_compose.
  apply list_elem_of_fmap in Hin as ([k v] & -> & Hin).
  apply list_elem_of_fmap. exists (k, v). split; [|done].
  simpl. unfold rename_name. by rewrite bool_decide_eq_true_2.
Qed.

Lemma convert_units_outcome coord target source :
  (∃ coord', cfunits.convert_units (H0:=coord_mul keep_attrs) coord target source
               = Return coord') ∨
  cfunits.convert_units (H0:=coord_mul keep_attrs) coord target source
    = Raise (ConversionError source target).
Proof.
  destruct (decide (target = source)) as [->|Hne].
  - left. rewrite convert_units_same. eauto.
  - destruct (decide (cfunits.membership_matches target source
                        cfunits.PRESSURE_CONVERSION_RULES = 2)).
    + left. rewrite convert_units_return by done. eauto.
    + right. by apply convert_units_raise.
Qed.

(** The step of a role with one match whose canonical name no other
    coordinate has: the library refuses the rename, or the step returns, or
    the unit conversion fails. *)
Lemma translator_one_match
    (default_out_name default_units : string) (is_cf_type : DataArray A → bool)
    (cf_type : string) data coord_model match_ :
  match_values is_cf_type (coords data) = [match_] →
  name_taken (out_name_of coord_model cf_type default_out_name) match_
    (coords data).*1 = false →
  (∃ data', translator keep_attrs default_out_name default_units is_cf_type
              cf_type data coord_model = Return data') ∨
  (∃ source target,
      translator keep_attrs default_out_name default_units is_cf_type
        cf_type data coord_model = Raise (ConversionError source target)) ∨
  (rename_refused data match_
     (out_name_of coord_model cf_type default_out_name) = true ∧
   translator keep_attrs default_out_name default_units is_cf_type
     cf_type data coord_model
     = Raise (ValueError
                (CannotRename match_
                   (out_name_of coord_model cf_type default_out_name)))).
Proof.
  intros Hm Hfree. unfold translator. rewrite Hm. simpl.
  fold (out_name_of coord_model cf_type default_out_name).
  fold (units_of coord_model cf_type default_units).
  rewrite Hfree, rename_outcome.
  destruct (rename_refused data match_
              (out_name_of coord_model cf_type default_out_name)) eqn:Href;
    [by right; right|].
  simpl.
  destruct (get_coord_rename data match_
              (out_name_of coord_model cf_type default_out_name))
    as [coord Hc].
  { apply (match_values_names is_cf_type). rewrite Hm. by left. }
  rewrite Hc. simpl.
  destruct (attrs coord !! "units") as [source|]; [|eauto].
  destruct (convert_units_outcome coord
              (units_of coord_model cf_type default_units) source)
    as [[coord' ->]| ->]; simpl; [|eauto].
  destruct (set_attr_Return (set_coord (renamed data match_
                (out_name_of coord_model cf_type default_out_name))
                (out_name_of coord_model cf_type default_out_name) coord')
              (out_name_of coord_model cf_type default_out_name) "untis"
              (units_of coord_model cf_type default_units) coord')
    as (data' & -> & _); [apply get_coord_set_coord|eauto].
Qed.

Lemma match_values_first_value {V} (f : V → bool)
    (mapping : list (string * V)) name names value :
  NoDup mapping.*1 →
  match_values f mapping = name :: names →
  item name mapping = Some value →
  f value = true.
Proof.
  induction mapping as [|[k v] mapping IH]; simpl; [done|].
  intros [Hk Hnd]%NoDup_cons.
  destruct (f v) eqn:Hf.
  - intros [= -> _]. rewrite bool_decide_eq_true_2 by done. by intros [= <-].
  - intros Hm. case_bool_decide as Hkn; [|by apply IH].
    subst k. destruct Hk.
    apply (match_values_names f). rewrite Hm. by left.
Qed.

Lemma is_valid_time_tagged (a : A) (attributes : gmap string string) :
  is_valid_time
    {| values := a; attrs := <["standard_name":="time"]> attributes |} = true.
Proof.
  unfold is_valid_time. simpl.
  by rewrite lookup_insert_eq, bool_decide_eq_true_2.
Qed.

End Roles.

Section RoleSteps.
Context {F A : Type} `{Arith F} `{ArrayLike F A}.
Variable keep_attrs : bool.

(** The step of a role writes the canonical unit under the key ['untis']:
    after a conversion between two different unit names the coordinate has
    the canonical unit there and not under ['units']. *)
Lemma translator_writes_untis
    (default_out_name default_units : string) (is_cf_type : DataArray A → bool)
    (cf_type : string) (data data' : Dataset A)
    (coord_model : gmap string (gmap string string))
    (match_ : string) (coord : DataArray A) (source_units : string) :
  let out_name := out_name_of coord_model cf_type default_out_name in
  let units := units_of coord_model cf_type default_units in
  match_values is_cf_type (coords data) = [match_] →
  get_coord (renamed data match_ out_name) out_name = Return coord →
  attrs coord !! "units" = Some source_units →
  source_units ≠ units →
  translator keep_attrs default_out_name default_units is_cf_type
    cf_type data coord_model = Return data' →
  ∃ coord',
    get_coord data' out_name = Return coord' ∧
    attrs coord' !! "untis" = Some units ∧
    attrs coord' !! "units" ≠ Some units.
Proof.
  intros out_name units Hm Hc Hu Hne. unfold translator.
  fold out_name units. rewrite Hm. simpl.
  destruct (name_taken out_name match_ (coords data).*1); [done|].
  rewrite rename_outcome.
  destruct (rename_refused data match_ out_name); [done|]. simpl.
  rewrite Hc. simpl. rewrite Hu.
  destruct (decide (cfunits.membership_matches units source_units
                      cfunits.PRESSURE_CONVERSION_RULES = 2)) as [Hk|Hk].
  - rewrite convert_units_return by done. simpl.
    match goal with
    | |- context [set_coord ?d out_name ?c] =>
        destruct (set_attr_Return (set_coord d out_name c) out_name
                    "untis" units c) as (data'' & -> & _ & Hget);
          [apply get_coord_set_coord|]
    end.
    intros [= <-]. eexists. split; [exact Hget|]. simpl.
    split; [by rewrite lookup_insert_eq|].
    rewrite lookup_insert_ne by done.
    unfold mul_by, coord_mul, da_mul. simpl.
    destruct keep_attrs; [congruence|by rewrite lookup_empty].
  - by rewrite convert_units_raise.
Qed.

(** The second test of [ensure_valid_time] compares the size of the period
    coordinate with itself: once the first test fails and the period
    coordinate exists, the period dimension is swapped whatever the sizes. *)
Lemma ensure_valid_time_second_test (data data' : Dataset A)
    (valid_time time step : string)
    (valid_time_coord time_coord step_coord : DataArray A) :
  ensure_valid_time_present keep_attrs data "valid_time"
    = Return (data', (valid_time, time, step)) →
  valid_time ∉ dims data' →
  get_coord data' time = Return time_coord →
  get_coord data' valid_time = Return valid_time_coord →
  arr_size (values time_coord) ≠ arr_size (values valid_time_coord) →
  get_coord data' step = Return step_coord →
  ensure_valid_time keep_attrs data = swap_dims data' step valid_time.
Proof.
  intros Hp Hd Ht Hv Hne Hs. unfold ensure_valid_time. rewrite Hp. simpl.
  rewrite bool_decide_eq_true_2 by done.
  rewrite Ht, Hv. simpl. rewrite bool_decide_eq_false_2 by done.
  rewrite Hs. simpl. by rewrite bool_decide_eq_true_2.
Qed.

(** The coordinate that [data.rename({old: new}).coords[new]] finds, when
    no other coordinate has the name [new]. *)
Lemma get_coord_rename_item (data : Dataset A) (old new : string)
    (coord : DataArray A) :
  item old (coords data) = Some coord →
  name_taken new old (coords data).*1 = false →
  get_coord (renamed data old new) new
    = Return {| values := arr_rename old new (values coord);
                attrs := attrs coord |}.
Proof.
  destruct data as [ds cs]. unfold get_coord, renamed. simpl.
  induction cs as [|[k v] cs IH]; simpl; [done|].
  intros Hitem [Hk Htaken]%orb_false_elim.
  destruct (decide (k = old)) as [->|Hold].
  - rewrite bool_decide_eq_true_2 in Hitem by done. injection Hitem as ->.
    assert (rename_name old new old = new) as ->
      by (unfold rename_name; by rewrite bool_decide_eq_true_2).
    by rewrite bool_decide_eq_true_2.
  - rewrite bool_decide_eq_false_2 in Hitem by done.
    assert (rename_name old new k = k) as ->
      by (unfold rename_name; by rewrite bool_decide_eq_false_2).
    rewrite bool_decide_eq_false_2.
    + apply (IH Hitem Htaken).
    + intros ->. rewrite !bool_decide_eq_true_2 in Hk by done. discriminate.
Qed.

(** A latitude unit that is not spelt ['degrees_north'] stops [translate]
    once the coordinate is renamed: it is in no group of the pressure
    table. *)
Lemma translate_latitude_spelling_raises (data : Dataset A)
    (match_ : string) (coord : DataArray A) (source_units : string) :
  match_values is_latitude (coords data) = [match_] →
  name_taken "latitude" match_ (coords data).*1 = false →
  rename_refused data match_ "latitude" = false →
  item match_ (coords data) = Some coord →
  attrs coord !! "units" = Some source_units →
  source_units ∈ VALID_LAT_UNITS →
  source_units ≠ "degrees_north" →
  translate data COORD_MODEL (TRANSLATORS keep_attrs)
    = Raise (ConversionError source_units "degrees_north").
Proof.
  intros Hm Hfree Href Hitem Hu Hin Hne.
  assert (translator keep_attrs "latitude" "degrees_north" is_latitude
            "latitude" data COORD_MODEL
          = Raise (ConversionError source_units "degrees_north")) as Hstep.
  { unfold translator.
    assert (out_name_of COORD_MODEL "latitude" "latitude" = "latitude") as ->
      by reflexivity.
    assert (units_of COORD_MODEL "latitude" "degrees_north" = "degrees_north")
      as -> by reflexivity.
    rewrite Hm. simpl. rewrite Hfree, rename_outcome, Href. simpl.
    rewrite (get_coord_rename_item _ _ _ _ Hitem Hfree). simpl. rewrite Hu.
    rewrite convert_units_raise; [done|congruence|].
    unfold VALID_LAT_UNITS in Hin.
    repeat (apply elem_of_cons in Hin as [->|Hin]; [done || (vm_compute; lia)|]).
    by apply elem_of_nil in Hin. }
  unfold TRANSLATORS. simpl. by rewrite Hstep.
Qed.

(** The loop of [translate] over a list of translators in two parts. *)
Lemma translate_app (data : Dataset A)
    (coord_model : gmap string (gmap string string))
    (before after : list (string * registered (A:=A))) :
  translate data coord_model (before ++ after) =
    (data' ← translate data coord_model before;
     translate data' coord_model after).
Proof.
  revert data. induction before as [|[cf_name tr] before IH]; intros data;
    [done|].
  simpl. destruct (tr cf_name data coord_model) as [data1|e]; simpl; [|done].
  apply IH.
Qed.

End RoleSteps.

(** C8: when more than one coordinate satisfies the predicate of a role,
    the step of that role raises the [ValueError] "Found more than one CF
    coordinate with type ..." that names the role: the step ends there,
    before its rename and its unit conversion, and returns no dataset.  So
    does [translate] for the role it applies first, latitude, and for any
    role once the steps before it have returned: the error is raised when
    more than one coordinate of the dataset that those steps leave satisfies
    the predicate.  An error of an earlier step ends [translate] before the
    role is looked at. *)
Theorem more_than_one_match_raises
    {F A : Type} `{Arith F} `{ArrayLike F A} (keep_attrs : bool) :
  (∀ (default_out_name default_units : string)
     (is_cf_type : DataArray A → bool) (cf_type : string)
     (data : Dataset A) (coord_model : gmap string (gmap string string)),
     1 < length (match_values is_cf_type (coords data)) →
     translator keep_attrs default_out_name default_units is_cf_type
         cf_type data coord_model
       = Raise (ValueError (MoreThanOneCoordinate cf_type))) ∧
  (∀ (data : Dataset A) (coord_model : gmap string (gmap string string)),
     1 < length (match_values is_latitude (coords data)) →
     translate data coord_model (TRANSLATORS keep_attrs)
       = Raise (ValueError (MoreThanOneCoordinate "latitude"))) ∧
  (∀ (before after : list (string * registered (A:=A)))
     (default_out_name default_units : string)
     (is_cf_type : DataArray A → bool) (cf_type : string)
     (data data' : Dataset A) (coord_model : gmap string (gmap string string)),
     translate data coord_model before = Return data' →
     1 < length (match_values is_cf_type (coords data')) →
     translate data coord_model
         (before
          ++ (cf_type,
              translator keep_attrs default_out_name default_units is_cf_type)
             :: after)
       = Raise (ValueError (MoreThanOneCoordinate cf_type))) ∧
  (∀ (before after : list (string * registered (A:=A)))
     (data : Dataset A) (coord_model : gmap string (gmap string string))
     (e : exn),
     translate data coord_model before = Raise e →
     translate data coord_model (before ++ after) = Raise e).
Proof.
  assert (∀ name units (is_cf_type : DataArray A → bool) cf_name
            (data : Dataset A) coord_model,
    1 < length (match_values is_cf_type (coords data)) →
    translator keep_attrs name units is_cf_type cf_name data coord_model
      = Raise (ValueError (MoreThanOneCoordinate cf_name))) as Hstep.
  { intros * Hlen. unfold translator. by rewrite bool_decide_eq_true_2. }
  split; [exact Hstep|]. split; [|split].
  - intros data coord_model Hlen. unfold TRANSLATORS. simpl.
    by rewrite Hstep.
  - intros before after name units is_cf_type cf_type data data' coord_model
      Hbefore Hlen.
    rewrite translate_app, Hbefore. simpl. by rewrite Hstep.
  - intros before after data coord_model e Hbefore.
    by rewrite translate_app, Hbefore.
Qed.

(** C9: when one coordinate satisfies the predicate of a role, the step of
    that role raises the [ValueError] "Found non CF compliant coordinate with
    type ..." if and only if a coordinate other than the matched one has the
    canonical name of the role.  When the matched coordinate has that name
    itself, the step raises no [ValueError], the rename returns the dataset
    as it is, and the step returns unless the unit conversion raises
    [ConversionError].  When no other coordinate has the canonical name, an
    error of the rename is the error of the step. *)
Theorem naming_conflict_iff
    {F A : Type} `{Arith F} `{ArrayLike F A} `{!ArrayLaws F A} (keep_attrs : bool)
    (default_out_name default_units : string) (is_cf_type : DataArray A → bool)
    (cf_type : string) (data : Dataset A)
    (coord_model : gmap string (gmap string string)) (match_ : string) :
  match_values is_cf_type (coords data) = [match_] →
  let out_name := out_name_of coord_model cf_type default_out_name in
  let outcome :=
    translator keep_attrs default_out_name default_units is_cf_type
      cf_type data coord_model in
  (outcome = Raise (ValueError (NonCompliantCoordinate cf_type)) ↔
   ∃ name, name ∈ (coords data).*1 ∧ name = out_name ∧ name ≠ match_) ∧
  (match_ = out_name →
   (∀ msg, outcome ≠ Raise (ValueError msg)) ∧
   rename data match_ out_name = Return data ∧
   ((∃ data', outcome = Return data') ∨
    (∃ source target, outcome = Raise (ConversionError source target)))) ∧
  (name_taken out_name match_ (coords data).*1 = false →
   ∀ e, rename data match_ out_name = Raise e → outcome = Raise e).
Proof.
  intros Hm out_name outcome.
  destruct (name_taken out_name match_ (coords data).*1) eqn:Htaken.
  - assert (outcome = Raise (ValueError (NonCompliantCoordinate cf_type))) as Ho.
    { unfold outcome, translator. rewrite Hm. simpl.
      fold (out_name_of coord_model cf_type default_out_name).
      fold out_name. by rewrite Htaken. }
    apply name_taken_spec in Htaken. split; [done|]. split; [|done].
    intros ->. destruct Htaken as (name & _ & Heq & Hne). by destruct Hne.
  - pose proof (translator_one_match keep_attrs default_out_name default_units
                  is_cf_type cf_type data coord_model match_ Hm Htaken) as Ho.
    fold outcome out_name in Ho.
    assert (match_ ∈ (coords data).*1) as Hin.
    { apply (match_values_names is_cf_type). rewrite Hm. by left. }
    split; [|split].
    + split.
      * intros Hr. destruct Ho as [[? Ho]|[(? & ? & Ho)|[_ Ho]]]; congruence.
      * intros Hex%name_taken_spec. congruence.
    + intros Heq.
      assert (rename_refused data match_ out_name = false) as Href
        by (rewrite <- Heq; by apply rename_refused_same).
      split; [|split].
      * intros msg Hr.
        destruct Ho as [[? Ho]|[(? & ? & Ho)|[Hrefused Ho]]]; congruence.
      * rewrite <- Heq. by apply rename_same.
      * destruct Ho as [Ho|[Ho|[Hrefused Ho]]]; [by left|by right|congruence].
    + intros _ e He. unfold outcome, translator. rewrite Hm. simpl.
      fold (out_name_of coord_model cf_type default_out_name).
      fold out_name. by rewrite Htaken, He.
Qed.

(** C2, the names being those of the coordinates: on a dataset without a
    coordinate that satisfies the
    valid-time predicate, [ensure_valid_time_present] raises the [ValueError]
    "Not enough information ..." when no coordinate satisfies the
    reference-time predicate.  Otherwise it stores a coordinate under the
    valid-time name and tags it with the standard name ['time'], so that it
    satisfies the valid-time predicate: the sum of the first reference-time
    and the first period coordinate when a period coordinate exists,
    returning their two names (both non-empty when no coordinate of the
    dataset has the empty name), and the first reference-time coordinate
    itself otherwise, returning the empty period name. *)
Theorem valid_time_derivation
    {F A : Type} `{Arith F} `{ArrayLike F A} (keep_attrs : bool)
    (data : Dataset A) (valid_time_name : string) :
  match_values is_valid_time (coords data) = [] →
  match match_values is_forecast_reference_time (coords data),
        match_values is_forecast_period (coords data) with
  | [], _ =>
      ensure_valid_time_present keep_attrs data valid_time_name
        = Raise (ValueError NotEnoughInformation)
  | time :: _, step :: _ =>
      ∃ time_coord step_coord data' valid_time_coord,
        get_coord data time = Return time_coord ∧
        get_coord data step = Return step_coord ∧
        ensure_valid_time_present keep_attrs data valid_time_name
          = Return (data', (valid_time_name, time, step)) ∧
        get_coord data' valid_time_name = Return valid_time_coord ∧
        values valid_time_coord
          = arr_add (values time_coord) (values step_coord) ∧
        is_valid_time valid_time_coord = true ∧
        (NoDup (coords data).*1 →
         is_forecast_reference_time time_coord = true ∧
         is_forecast_period step_coord = true) ∧
        ("" ∉ (coords data).*1 → time ≠ "" ∧ step ≠ "")
  | time :: _, [] =>
      ∃ time_coord data' valid_time_coord,
        get_coord data time = Return time_coord ∧
        ensure_valid_time_present keep_attrs data valid_time_name
          = Return (data', (valid_time_name, time, "")) ∧
        get_coord data' valid_time_name = Return valid_time_coord ∧
        values valid_time_coord = values time_coord ∧
        is_valid_time valid_time_coord = true ∧
        (NoDup (coords data).*1 →
         is_forecast_reference_time time_coord = true)
  end.
Proof.
  intros Hvalid.
  destruct (match_values is_forecast_reference_time (coords data))
    as [|time times] eqn:Htimes.
  { unfold ensure_valid_time_present. by rewrite Hvalid, Htimes. }
  destruct (match_values_first _ _ _ _ Htimes) as [time_coord Ht].
  assert (get_coord data time = Return time_coord) as Hgt
    by (unfold get_coord; by rewrite Ht).
  destruct (match_values is_forecast_period (coords data))
    as [|step steps] eqn:Hsteps.
  - destruct (set_attr_Return (set_coord data valid_time_name time_coord)
                valid_time_name "standard_name" "time" time_coord)
      as (data' & Hset & _ & Hget); [apply get_coord_set_coord|].
    exists time_coord, data'. eexists.
    split; [done|]. split.
    { unfold ensure_valid_time_present.
      rewrite Hvalid, Htimes, Hsteps, Hgt. simpl. by rewrite Hset. }
    split; [exact Hget|]. split; [done|].
    split; [apply is_valid_time_tagged|].
    intros Hnd. by apply (match_values_first_value _ _ _ _ _ Hnd Htimes).
  - destruct (match_values_first _ _ _ _ Hsteps) as [step_coord Hs].
    assert (get_coord data step = Return step_coord) as Hgs
      by (unfold get_coord; by rewrite Hs).
    destruct (set_attr_Return
                (set_coord data valid_time_name
                   (da_add keep_attrs time_coord step_coord))
                valid_time_name "standard_name" "time"
                (da_add keep_attrs time_coord step_coord))
      as (data' & Hset & _ & Hget); [apply get_coord_set_coord|].
    exists time_coord, step_coord, data'. eexists.
    split; [done|]. split; [done|]. split.
    { unfold ensure_valid_time_present.
      rewrite Hvalid, Htimes, Hsteps, Hgt, Hgs. simpl. by rewrite Hset. }
    split; [exact Hget|]. split; [done|].
    split; [apply is_valid_time_tagged|]. split.
    + intros Hnd. split.
      * by apply (match_values_first_value _ _ _ _ _ Hnd Htimes).
      * by apply (match_values_first_value _ _ _ _ _ Hnd Hsteps).
    + intros Hempty. split; intros ->; apply Hempty.
      * apply (match_values_names is_forecast_reference_time).
        rewrite Htimes. by left.
      * apply (match_values_names is_forecast_period).
        rewrite Hsteps. by left.
Qed.

(** C10: on a dataset with a coordinate that satisfies the valid-time
    predicate, [ensure_valid_time_present] returns the name of the first
    such coordinate with the empty string as reference-time and as period
    name, whatever other coordinates exist, and leaves the dataset as it is.
    Hence, when that coordinate is not a dimension and no coordinate has the
    empty name, [ensure_valid_time] ends with the [KeyError] of the lookup
    [data.coords['']]. *)
Theorem existing_valid_time_key_error
    {F A : Type} `{Arith F} `{ArrayLike F A} (keep_attrs : bool)
    (data : Dataset A) (valid_time : string) (valid_times : list string) :
  match_values is_valid_time (coords data) = valid_time :: valid_times →
  (∀ valid_time_name,
     ensure_valid_time_present keep_attrs data valid_time_name
       = Return (data, (valid_time, "", ""))) ∧
  (valid_time ∉ dims data →
   "" ∉ (coords data).*1 →
   ensure_valid_time keep_attrs data = Raise (KeyError "")).
Proof.
  intros Hvalid.
  assert (∀ valid_time_name,
    ensure_valid_time_present keep_attrs data valid_time_name
      = Return (data, (valid_time, "", ""))) as Hpresent.
  { intros. unfold ensure_valid_time_present. by rewrite Hvalid. }
  split; [exact Hpresent|].
  intros Hdim Hempty%item_None.
  unfold ensure_valid_time. rewrite Hpresent. simpl.
  rewrite bool_decide_eq_true_2 by done.
  unfold get_coord. by rewrite Hempty.
Qed.

(** *** The examples *)

Import ndarray ndarray_facts examples.

(** C1: the dataset has the one coordinate ['lat'] with the unit
    ['degree_north'] and no coordinate named ['latitude'].  [translate]
    raises [ConversionError]: the unit differs from ['degrees_north'] and is
    in no group of the pressure table. *)
Theorem translate_degree_north_raises :
  match_values is_latitude (coords lat_dataset) = ["lat"] ∧
  name_taken "latitude" "lat" (coords lat_dataset).*1 = false ∧
  ∀ keep_attrs,
    translate lat_dataset COORD_MODEL (TRANSLATORS keep_attrs)
      = Raise (ConversionError "degree_north" "degrees_north").
Proof.
  split; [reflexivity|]. split; [reflexivity|].
  intros []; vm_compute; reflexivity.
Qed.

(** C3: the one coordinate ['lev'] satisfies the vertical-pressure predicate
    and has the unit ['Pa'].  After the step of the role the coordinate is
    named ['level'] and has the canonical unit ['hPa'] under the key
    ['untis']; under ['units'] it has the old unit or none. *)
Theorem units_attribute_not_rewritten :
  match_values is_vertical_pressure (coords lev_dataset) = ["lev"] ∧
  ∀ keep_attrs,
    (data' ← translator keep_attrs "level" "hPa" is_vertical_pressure
               "vertical_pressure" lev_dataset COORD_MODEL;
     coord ← get_coord data' "level";
     mret (attrs coord !! "units", attrs coord !! "untis"))
    = Return (if keep_attrs then Some "Pa" else None, Some "hPa").
Proof.
  split; [reflexivity|]. intros []; vm_compute; reflexivity.
Qed.

(** C4: two reference times and three periods give six valid times.  The
    valid-time coordinate is no dimension and has neither the size of the
    reference time nor that of the period, and yet [ensure_valid_time] goes
    on to swap the period dimension, which the dataset refuses: it does not
    return the dataset as it is. *)
Theorem ensure_valid_time_swaps_unequal_sizes :
  ∀ keep_attrs,
    ('(data', (valid_time, time, step)) ←
        ensure_valid_time_present keep_attrs forecast_dataset "valid_time";
     valid_time_coord ← get_coord data' valid_time;
     time_coord ← get_coord data' time;
     step_coord ← get_coord data' step;
     mret (valid_time, time, step,
           bool_decide (valid_time ∈ dims data'),
           arr_size (values valid_time_coord),
           arr_size (values time_coord),
           arr_size (values step_coord),
           swap_dims data' step valid_time))
    = Return ("valid_time", "time", "step", false, 6, 2, 3,
              Raise (ValueError (NotAlongDimension "valid_time" "step"))) ∧
    ensure_valid_time keep_attrs forecast_dataset
    = Raise (ValueError (NotAlongDimension "valid_time" "step")).
Proof. intros []; split; vm_compute; reflexivity. Qed.

(** C2: the reference-time coordinate of the dataset has the empty name.
    No coordinate satisfies the valid-time predicate, a period coordinate
    exists, and the reference-time name that is returned is empty. *)
Lemma empty_reference_time_name :
  match_values is_valid_time (coords unnamed_time_dataset) = [] ∧
  match_values is_forecast_reference_time (coords unnamed_time_dataset) = [""] ∧
  match_values is_forecast_period (coords unnamed_time_dataset) = ["step"] ∧
  ∀ keep_attrs,
    (r ← ensure_valid_time_present keep_attrs unnamed_time_dataset "valid_time";
     mret r.2)
    = Return ("valid_time", "", "step").
Proof.
  split; [reflexivity|]. split; [reflexivity|]. split; [reflexivity|].
  intros []; vm_compute; reflexivity.
Qed.

(** C2 on two reference times and three periods. *)
Lemma valid_time_derivation_forecast :
  match_values is_valid_time (coords forecast_dataset) = [] ∧
  ∃ time_coord step_coord data' valid_time_coord,
    get_coord forecast_dataset "time" = Return time_coord ∧
    get_coord forecast_dataset "step" = Return step_coord ∧
    ensure_valid_time_present false forecast_dataset "valid_time"
      = Return (data', ("valid_time", "time", "step")) ∧
    get_coord data' "valid_time" = Return valid_time_coord ∧
    values valid_time_coord = arr_add (values time_coord) (values step_coord) ∧
    is_valid_time valid_time_coord = true ∧
    nd_at (values valid_time_coord) [1; 2] = 129600%float ∧
    "time" ≠ "" ∧ "step" ≠ "".
Proof.
  assert (match_values is_valid_time (coords forecast_dataset) = []) as Hm
    by reflexivity.
  split; [exact Hm|].
  destruct (valid_time_derivation false forecast_dataset "valid_time" Hm)
    as (tc & sc & data' & vc & Ht & Hs & Hp & Hv & Hsum & Htag & _ & Hnames).
  exists tc, sc, data', vc. repeat (split; [assumption|]).
  split.
  { assert (get_coord forecast_dataset "time"
              = Return (coordinate "time" "int64" [0%float; 86400%float]
                          [("standard_name", "forecast_reference_time")]))
      as Ht' by reflexivity.
    assert (get_coord forecast_dataset "step"
              = Return (coordinate "step" "int64"
                          [0%float; 21600%float; 43200%float]
                          [("standard_name", "forecast_period")]))
      as Hs' by reflexivity.
    rewrite Ht in Ht'. rewrite Hs in Hs'.
    injection Ht' as ->. injection Hs' as ->.
    rewrite Hsum. vm_compute. reflexivity. }
  apply Hnames. vm_compute. intros Hin.
  repeat (apply elem_of_cons in Hin as [Hin|Hin]; [discriminate|]).
  by apply elem_of_nil in Hin.
Defined.

(** C8: two coordinates satisfy the longitude predicate, and [translate]
    raises the [ConversionError] of the latitude step, which comes first. *)
Lemma earlier_role_error_first :
  1 < length (match_values is_longitude (coords two_longitudes_dataset)) ∧
  ∀ keep_attrs,
    translate two_longitudes_dataset COORD_MODEL (TRANSLATORS keep_attrs)
      = Raise (ConversionError "degree_north" "degrees_north").
Proof.
  split; [vm_compute; lia|]. intros []; vm_compute; reflexivity.
Qed.

(** C8 on two latitude axes, and on two longitude axes next to a latitude
    axis in the canonical unit. *)
Lemma more_than_one_latitude :
  1 < length (match_values is_latitude (coords two_latitudes_dataset)) ∧
  translator false "latitude" "degrees_north" is_latitude "latitude"
    two_latitudes_dataset COORD_MODEL
    = Raise (ValueError (MoreThanOneCoordinate "latitude")) ∧
  translate two_latitudes_dataset COORD_MODEL (TRANSLATORS false)
    = Raise (ValueError (MoreThanOneCoordinate "latitude")) ∧
  (∃ data',
     translate two_longitudes_degrees_north_dataset COORD_MODEL
       [("latitude", translator false "latitude" "degrees_north" is_latitude)]
       = Return data' ∧
     1 < length (match_values is_longitude (coords data'))) ∧
  translate two_longitudes_degrees_north_dataset COORD_MODEL (TRANSLATORS false)
    = Raise (ValueError (MoreThanOneCoordinate "longitude")).
Proof.
  assert (1 < length (match_values is_latitude (coords two_latitudes_dataset)))
    as Hlen by (vm_compute; lia).
  split; [exact Hlen|].
  destruct (more_than_one_match_raises (F:=float) (A:=NdArray float) false)
    as (Hstep & Htranslate & Hlater & _).
  split; [by apply Hstep|]. split; [by apply Htranslate|].
  assert (∃ data',
     translate two_longitudes_degrees_north_dataset COORD_MODEL
       [("latitude", translator false "latitude" "degrees_north" is_latitude)]
       = Return data' ∧
     1 < length (match_values is_longitude (coords data'))) as Hbefore.
  { eexists. split; [vm_compute; reflexivity|vm_compute; lia]. }
  split; [exact Hbefore|].
  destruct Hbefore as (data' & Hbefore & Hlon).
  exact (Hlater
           [("latitude", translator false "latitude" "degrees_north" is_latitude)]
           _ "longitude" "degrees_east" is_longitude "longitude"
           two_longitudes_degrees_north_dataset data' COORD_MODEL Hbefore Hlon).
Defined.

(** C9: the one latitude axis has the canonical name already, and the
    step raises the [ConversionError] of its unit conversion. *)
Lemma canonical_name_conversion_error :
  match_values is_latitude (coords latitude_degree_north_dataset)
    = ["latitude"] ∧
  ∀ keep_attrs,
    translator keep_attrs "latitude" "degrees_north" is_latitude "latitude"
      latitude_degree_north_dataset COORD_MODEL
      = Raise (ConversionError "degree_north" "degrees_north").
Proof.
  split; [reflexivity|]. intros []; vm_compute; reflexivity.
Qed.

(** C9 on a latitude axis that is named ['latitude'] already. *)
Lemma naming_conflict_latitude :
  match_values is_latitude (coords latitude_dataset) = ["latitude"] ∧
  (∀ msg,
     translator false "latitude" "degrees_north" is_latitude "latitude"
       latitude_dataset COORD_MODEL ≠ Raise (ValueError msg)) ∧
  rename latitude_dataset "latitude" "latitude" = Return latitude_dataset.
Proof.
  assert (match_values is_latitude (coords latitude_dataset) = ["latitude"])
    as Hm by reflexivity.
  split; [exact Hm|].
  destruct (naming_conflict_iff false "latitude" "degrees_north" is_latitude
              "latitude" latitude_dataset COORD_MODEL "latitude" Hm)
    as (_ & Hsame & _).
  destruct (Hsame eq_refl) as (Hv & Hr & _).
  split; [exact Hv|exact Hr].
Defined.

(** C10 on a forecast that has its valid time along the reference time. *)
Lemma existing_valid_time_forecast :
  match_values is_valid_time (coords valid_time_dataset) = ["valid_time"] ∧
  ("valid_time" ∉ dims valid_time_dataset) ∧
  ("" ∉ (coords valid_time_dataset).*1) ∧
  ensure_valid_time_present false valid_time_dataset "valid_time"
    = Return (valid_time_dataset, ("valid_time", "", "")) ∧
  ensure_valid_time false valid_time_dataset = Raise (KeyError "").
Proof.
  assert (match_values is_valid_time (coords valid_time_dataset) = ["valid_time"])
    as Hm by reflexivity.
  assert ("valid_time" ∉ dims valid_time_dataset) as Hd.
  { vm_compute. intros Hin.
    repeat (apply elem_of_cons in Hin as [Hin|Hin]; [discriminate|]).
    by apply elem_of_nil in Hin. }
  assert ("" ∉ (coords valid_time_dataset).*1) as He.
  { vm_compute. intros Hin.
    repeat (apply elem_of_cons in Hin as [Hin|Hin]; [discriminate|]).
    by apply elem_of_nil in Hin. }
  split; [exact Hm|]. split; [exact Hd|]. split; [exact He|].
  destruct (existing_valid_time_key_error false valid_time_dataset
              "valid_time" [] Hm) as [Hp Hk].
  split; [apply Hp|by apply Hk].
Defined.

End cfcoords_facts.

(** * Further properties *)

(** ** Unit conversion *)

Module cfunits_laws.
Import cfunits cfunits_facts.

Section Known.
Context {F : Type} `{Arith F}.

Lemma unit_groups_known units (rs : rules (F:=F)) :
  units ∈ concat rs.*1 → unit_groups units rs ≠ [].
Proof.
  induction rs as [|[us f] rs IH]; simpl.
  - by intros ?%elem_of_nil.
  - rewrite elem_of_app. intros Hin. unfold unit_groups. simpl.
    case_bool_decide as Hus; [done|]. apply IH. tauto.
Qed.

Lemma pressure_unit_groups_length units :
  length (unit_groups (F:=F) units PRESSURE_CONVERSION_RULES)
    = if bool_decide (units ∈ pressure_units (F:=F)) then 1 else 0.
Proof.
  pose proof (pressure_unit_groups_le (F:=F) units) as Hle.
  case_bool_decide as Hin.
  - apply unit_groups_known in Hin.
    destruct (unit_groups units PRESSURE_CONVERSION_RULES); simpl in *; [done|lia].
  - by rewrite unit_groups_unknown.
Qed.

Lemma pressure_matches_two a b :
  membership_matches (F:=F) a b PRESSURE_CONVERSION_RULES = 2
  ↔ a ∈ pressure_units (F:=F) ∧ b ∈ pressure_units (F:=F).
Proof.
  unfold membership_matches. rewrite !pressure_unit_groups_length.
  repeat case_bool_decide; split; intros; try lia; tauto.
Qed.

Lemma convert_units_Return_inv {A} `{Mul F A} (data y : A) target source :
  convert_units data target source = Return y →
  (target = source ∧ y = data) ∨
  (target ≠ source ∧
   target ∈ pressure_units (F:=F) ∧ source ∈ pressure_units (F:=F) ∧
   y = mul_by data (scan target source PRESSURE_CONVERSION_RULES).1).
Proof.
  intros Hy. destruct (decide (target = source)) as [->|Hne].
  - left. rewrite convert_units_same in Hy. by injection Hy as <-.
  - right.
    destruct (decide (membership_matches target source
                        PRESSURE_CONVERSION_RULES = 2)) as [Hm|Hm].
    + rewrite convert_units_return in Hy by done. injection Hy as <-.
      apply pressure_matches_two in Hm. tauto.
    + by rewrite convert_units_raise in Hy.
Qed.

End Known.

(** X1: two unit names are convertible exactly when they are the same
    string or are both names of the pressure table. *)
Theorem are_convertible_iff_known {F : Type} `{Arith F} (a b : string) :
  are_convertible a b = true
  ↔ a = b ∨ (a ∈ pressure_units (F:=F) ∧ b ∈ pressure_units (F:=F)).
Proof. by rewrite are_convertible_true, pressure_matches_two. Qed.

(** X2: [are_convertible] is an equivalence on unit names: every name is
    convertible to itself, also one that no table knows, the order of the
    two names does not matter, and convertibility carries over a common
    name. *)
Theorem are_convertible_equivalence {F : Type} `{Arith F} :
  (∀ a, are_convertible a a = true) ∧
  (∀ a b, are_convertible a b = are_convertible b a) ∧
  (∀ a b c, are_convertible a b && are_convertible b c = true
            → are_convertible a c = true).
Proof.
  split; [|split].
  - intros a. apply are_convertible_true. by left.
  - intros a b. apply eq_true_iff_eq.
    rewrite !are_convertible_true, !pressure_matches_two. naive_solver.
  - intros a b c [Hab Hbc]%andb_true_iff.
    rewrite are_convertible_true, pressure_matches_two in Hab, Hbc.
    rewrite are_convertible_true, pressure_matches_two. naive_solver.
Qed.

(** X2 at ['mbar'], ['Pa'] and ['atm']. *)
Lemma are_convertible_mbar_atm :
  are_convertible (F:=float) "mbar" "Pa" && are_convertible (F:=float) "Pa" "atm"
    = true ∧
  are_convertible (F:=float) "mbar" "atm" = true.
Proof.
  assert (are_convertible (F:=float) "mbar" "Pa"
          && are_convertible (F:=float) "Pa" "atm" = true) as Hc by reflexivity.
  split; [exact Hc|].
  destruct (are_convertible_equivalence (F:=float)) as (_ & _ & Htrans).
  exact (Htrans "mbar" "Pa" "atm" Hc).
Defined.

(** X3: [convert_units] returns exactly for the pairs that
    [are_convertible] accepts: the data itself for equal names, the data
    times the factor of the table otherwise.  For every other pair it raises
    [ConversionError] with its source and target unit, whatever the data. *)
Theorem convert_units_outcome_by_convertibility
    {F A : Type} `{Arith F} `{Mul F A} (data : A) (target_units source_units : string) :
  convert_units data target_units source_units =
    if are_convertible target_units source_units
    then Return (if bool_decide (target_units = source_units) then data
                 else mul_by data
                        (scan target_units source_units PRESSURE_CONVERSION_RULES).1)
    else Raise (ConversionError source_units target_units).
Proof.
  destruct (are_convertible target_units source_units) eqn:Hc.
  - apply are_convertible_true in Hc.
    case_bool_decide as Heq; [subst; apply convert_units_same|].
    apply convert_units_return; naive_solver.
  - assert (¬ (target_units = source_units ∨
               membership_matches target_units source_units
                 PRESSURE_CONVERSION_RULES = 2)) as Hn.
    { rewrite <- are_convertible_true. congruence. }
    apply convert_units_raise; naive_solver.
Qed.

(** The test of the repository passes, with any arithmetic. *)
Theorem test_are_convertible_passes {F : Type} `{Arith F} :
  test_10_cfunits.test_are_convertible (F:=F) = true.
Proof.
  unfold test_10_cfunits.test_are_convertible.
  apply andb_true_iff. split.
  - apply are_convertible_true. by right.
  - apply negb_true_iff.
    destruct (are_convertible (F:=F) "m" "Pa") eqn:Hc; [|done].
    apply are_convertible_true in Hc as [Hc|Hc]; discriminate.
Qed.

Section ExactFactor.
Local Open Scope Q_scope.

Lemma factor_of_nonzero units (rs : rules (F:=Q)) :
  nonzero_factors rs → ¬ factor_of units rs == 0.
Proof.
  induction 1 as [|[us f] rs Hf Hnz IH]; simpl; [discriminate|].
  case_bool_decide; [|done]. simpl in Hf. intros Hz.
  apply Qmult_integral in Hz. tauto.
Qed.

Lemma scan_factor_from s t (rs : rules (F:=Q)) (st : Q * nat) :
  nonzero_factors rs →
  (fold_left (scan_rule s t) rs st).1
    == st.1 * factor_of t rs / factor_of s rs.
Proof.
  intros Hnz. revert st.
  induction Hnz as [|[us f] rs Hf Hnz IH]; intros [c n]; simpl.
  - field.
  - rewrite IH. simpl in Hf.
    pose proof (factor_of_nonzero s rs Hnz) as Hs.
    repeat case_bool_decide; simpl; field; auto.
Qed.

Lemma pressure_scan_factor s t :
  (scan s t PRESSURE_CONVERSION_RULES).1
    == factor_of t PRESSURE_CONVERSION_RULES / factor_of s PRESSURE_CONVERSION_RULES.
Proof.
  unfold scan. rewrite scan_factor_from by apply pressure_nonzero_factors.
  pose proof (factor_of_nonzero s _ pressure_nonzero_factors) as Hs.
  set (Fs := factor_of s _) in *. set (Ft := factor_of t _).
  simpl. field. done.
Qed.

Lemma convert_units_factor (x y : Q) (target source : string) :
  convert_units x target source = Return y →
  y == x * factor_of source PRESSURE_CONVERSION_RULES
         / factor_of target PRESSURE_CONVERSION_RULES.
Proof.
  intros [[-> ->]|(Hne & _ & _ & ->)]%convert_units_Return_inv.
  - field. apply factor_of_nonzero, pressure_nonzero_factors.
  - unfold mul_by, number_mul.
    change (f_mul x ?c) with (x * c). rewrite pressure_scan_factor.
    field. apply factor_of_nonzero, pressure_nonzero_factors.
Qed.

End ExactFactor.

(** X4: over exact arithmetic, a value that [convert_units] returns is the
    data times the factor of the source unit over the factor of the target
    unit, where every name of the pressure table has the factor of its group
    (and a name outside the table the factor one). *)
Theorem convert_units_exact_factor (x y : Q) (target_units source_units : string) :
  convert_units x target_units source_units = Return y →
  (y == x * factor_of source_units PRESSURE_CONVERSION_RULES
          / factor_of target_units PRESSURE_CONVERSION_RULES)%Q ∧
  Forall (λ rule : list string * Q,
            Forall (λ units, factor_of units PRESSURE_CONVERSION_RULES = rule.2)
              rule.1)
    PRESSURE_CONVERSION_RULES.
Proof.
  intros Hy. split.
  - by apply convert_units_factor.
  - repeat constructor.
Qed.

(** X4 at 850 hPa in pascal. *)
Lemma convert_units_exact_factor_850 :
  convert_units (850 # 1)%Q "Pa" "hPa" = Return (85000 # 1)%Q ∧
  (85000 # 1 == (850 # 1) * factor_of "hPa" PRESSURE_CONVERSION_RULES
                 / factor_of "Pa" PRESSURE_CONVERSION_RULES)%Q.
Proof.
  assert (convert_units (850 # 1)%Q "Pa" "hPa" = Return (85000 # 1)%Q) as Hc
    by reflexivity.
  split; [exact Hc|].
  apply (convert_units_exact_factor (850 # 1)%Q (85000 # 1)%Q "Pa" "hPa" Hc).
Defined.

(** X5: over exact arithmetic conversions compose: a value converted from
    [a] to [b] and then from [b] to [c] is the value converted from [a] to
    [c] at once, and that direct conversion does not fail. *)
Theorem convert_units_compose (a b c : string) (x y z : Q) :
  convert_units x b a = Return y →
  convert_units y c b = Return z →
  ∃ w : Q, convert_units x c a = Return w ∧ (w == z)%Q.
Proof.
  intros Hy Hz.
  assert (∃ w : Q, convert_units x c a = Return w) as [w Hw].
  { destruct (decide (c = a)) as [->|Hne].
    - rewrite convert_units_same. eauto.
    - rewrite convert_units_return; [eauto|done|].
      apply pressure_matches_two.
      apply convert_units_Return_inv in Hy as [[-> _]|(_ & Hb & Ha & _)],
        Hz as [[-> _]|(_ & Hc & Hb' & _)]; tauto. }
  exists w. split; [done|].
  apply convert_units_factor in Hy, Hz, Hw.
  rewrite Hw, Hz, Hy. field.
  split; apply factor_of_nonzero, pressure_nonzero_factors.
Qed.

(** X5 from atmospheres over bar to hPa. *)
Lemma convert_units_compose_atm_bar_hPa :
  convert_units (2 # 1)%Q "bar" "atm" = Return 2.02650%Q ∧
  convert_units 2.02650%Q "hPa" "bar" = Return 2026.5000000%Q ∧
  ∃ w : Q, convert_units (2 # 1)%Q "hPa" "atm" = Return w
           ∧ (w == 2026.5000000)%Q.
Proof.
  assert (convert_units (2 # 1)%Q "bar" "atm" = Return 2.02650%Q) as H1
    by reflexivity.
  assert (convert_units 2.02650%Q "hPa" "bar" = Return 2026.5000000%Q) as H2
    by reflexivity.
  split; [exact H1|]. split; [exact H2|].
  exact (convert_units_compose "atm" "bar" "hPa" _ _ _ H1 H2).
Defined.

End cfunits_laws.


(** ** Coordinate translation *)

Module cfcoords_laws.
Import cfunits xarray cfcoords cfunits_facts cfunits_laws cfcoords_facts.
Import ndarray ndarray_facts examples more_examples.

Section Items.
Context {V : Type}.
Implicit Types (mapping : list (string * V)) (name : string).

Lemma item_set_item_ne name name' (value : V) mapping :
  name' ≠ name → item name' (set_item name value mapping) = item name' mapping.
Proof.
  intros Hne. induction mapping as [|[k v] mapping IH]; simpl.
  - by rewrite bool_decide_eq_false_2.
  - case_bool_decide as Hk; simpl; [subst k|by rewrite IH].
    by rewrite !bool_decide_eq_false_2 by done.
Qed.

Lemma set_item_names name (value : V) mapping :
  name ∈ mapping.*1 → (set_item name value mapping).*1 = mapping.*1.
Proof.
  induction mapping as [|[k v] mapping IH]; simpl.
  - by intros ?%elem_of_nil.
  - intros Hin. case_bool_decide as Hk; [done|]. simpl. f_equal. apply IH.
    apply elem_of_cons in Hin as [Hin|Hin]; [congruence|done].
Qed.

Lemma set_item_set_item name (v1 v2 : V) mapping :
  set_item name v2 (set_item name v1 mapping) = set_item name v2 mapping.
Proof.
  induction mapping as [|[k v] mapping IH]; simpl.
  - by rewrite bool_decide_eq_true_2.
  - case_bool_decide as Hk; simpl.
    + by rewrite bool_decide_eq_true_2.
    + by rewrite bool_decide_eq_false_2, IH.
Qed.

Lemma match_values_set_item (f : V → bool) name (value : V) mapping :
  match_values f mapping = [] → f value = true →
  match_values f (set_item name value mapping) = [name].
Proof.
  intros Hm Hf. induction mapping as [|[k v] mapping IH]; simpl in *.
  - by rewrite Hf.
  - destruct (f v) eqn:Hv; [done|]. case_bool_decide as Hk; simpl.
    + subst k. by rewrite Hf, Hm.
    + rewrite Hv. by apply IH.
Qed.

End Items.

(** X6: [match_values] returns the names of the entries whose value
    satisfies the function, and no other name, in the order of the
    mapping. *)
Theorem match_values_spec {V : Type} (match_value_func : V → bool)
    (mapping : list (string * V)) :
  (∀ name, name ∈ match_values match_value_func mapping
           ↔ ∃ value, (name, value) ∈ mapping ∧ match_value_func value = true) ∧
  match_values match_value_func mapping `sublist_of` mapping.*1.
Proof.
  induction mapping as [|[k v] mapping [IHin IHsub]]; simpl.
  - split; [|done]. intros name. split.
    + by intros ?%elem_of_nil.
    + by intros (? & ?%elem_of_nil & _).
  - destruct (match_value_func v) eqn:Hv; split.
    + intros name. rewrite elem_of_cons, IHin. split.
      * intros [->|(value & Hin & Hf)]; [exists v|exists value];
          (split; [|done]); [by left|by right].
      * intros (value & [[= -> ->]|Hin]%elem_of_cons & Hf); eauto.
    + by apply sublist_skip.
    + intros name. rewrite IHin. split.
      * intros (value & Hin & Hf). exists value. split; [by right|done].
      * intros (value & [[= -> ->]|Hin]%elem_of_cons & Hf); [congruence|eauto].
    + by apply sublist_cons.
Qed.

Section Predicates.
Context {F A : Type} `{Arith F} `{ArrayLike F A}.
Implicit Types (coord : DataArray A).

Lemma latitude_units_elsewhere units :
  units ∈ VALID_LAT_UNITS →
  (units ∉ VALID_LON_UNITS) ∧ are_convertible (F:=F) units "Pa" = false.
Proof.
  unfold VALID_LAT_UNITS, VALID_LON_UNITS. intros Hin.
  assert (∀ l : list string, units ∈ l → In units l) as Hl
    by (intros l; apply list_elem_of_In).
  repeat (apply elem_of_cons in Hin as [->|Hin];
          [split; [intros ?%Hl; simpl in *; intuition discriminate
                  |reflexivity]|]).
  by apply elem_of_nil in Hin.
Qed.

Lemma longitude_units_elsewhere units :
  units ∈ VALID_LON_UNITS → are_convertible (F:=F) units "Pa" = false.
Proof.
  unfold VALID_LON_UNITS. intros Hin.
  repeat (apply elem_of_cons in Hin as [->|Hin]; [reflexivity|]).
  by apply elem_of_nil in Hin.
Qed.

End Predicates.

(** X7: no coordinate satisfies two of the three predicates that read the
    unit (latitude, longitude, vertical pressure), and none satisfies two of
    the four that read the standard name (forecast reference time, forecast
    period, valid time, realization). *)
Theorem predicates_exclusive
    {F A : Type} `{Arith F} `{ArrayLike F A} (coord : DataArray A) :
  is_latitude coord && is_longitude coord = false ∧
  is_latitude coord && is_vertical_pressure coord = false ∧
  is_longitude coord && is_vertical_pressure coord = false ∧
  is_forecast_reference_time coord && is_forecast_period coord = false ∧
  is_forecast_reference_time coord && is_valid_time coord = false ∧
  is_forecast_reference_time coord && is_realization coord = false ∧
  is_forecast_period coord && is_valid_time coord = false ∧
  is_forecast_period coord && is_realization coord = false ∧
  is_valid_time coord && is_realization coord = false.
Proof.
  unfold is_latitude, is_longitude, is_vertical_pressure,
    is_forecast_reference_time, is_forecast_period, is_valid_time,
    is_realization.
  split; [|split; [|split]].
  - destruct (attrs coord !! "units") as [units|]; [|done].
    case_bool_decide as Hlat; [|done]. simpl.
    apply bool_decide_eq_false_2.
    by destruct (latitude_units_elsewhere (F:=F) units Hlat).
  - destruct (attrs coord !! "units") as [units|]; [|done].
    case_bool_decide as Hlat; [|done]. simpl.
    by destruct (latitude_units_elsewhere (F:=F) units Hlat).
  - destruct (attrs coord !! "units") as [units|]; [|done].
    case_bool_decide as Hlon; [|done]. simpl.
    by apply longitude_units_elsewhere.
  - destruct (attrs coord !! "standard_name") as [name|];
      repeat split; repeat case_bool_decide; simpl; congruence.
Qed.

(** X8: a coordinate satisfies the vertical-pressure predicate exactly when
    it has a ['units'] attribute that is a name of the pressure table; a
    coordinate without the attribute does not. *)
Theorem is_vertical_pressure_iff
    {F A : Type} `{Arith F} `{ArrayLike F A} (coord : DataArray A) :
  is_vertical_pressure coord = true
  ↔ ∃ units, attrs coord !! "units" = Some units
             ∧ units ∈ pressure_units (F:=F).
Proof.
  unfold is_vertical_pressure.
  rewrite are_convertible_true, pressure_matches_two.
  assert ("Pa" ∈ pressure_units (F:=F)) as HPa by (by left).
  assert ("" ∉ pressure_units (F:=F)) as Hempty.
  { intros Hin%list_elem_of_In. simpl in Hin. intuition discriminate. }
  destruct (attrs coord !! "units") as [units|]; simpl.
  - split.
    + intros [->|[Hin _]]; eauto.
    + intros (u & [= <-] & Hin). by right.
  - split.
    + intros [Heq|[Hin _]]; [discriminate|done].
    + by intros (u & Hu & _).
Qed.

Section Steps.
Context {F A : Type} `{Arith F} `{ArrayLike F A}.
Variable keep_attrs : bool.
Implicit Types (data : Dataset A) (coord : DataArray A).
Implicit Types (coord_model : gmap string (gmap string string)).

Lemma rename_names data old new :
  (coords (renamed data old new)).*1 = rename_name old new <$> (coords data).*1.
Proof.
  unfold renamed. simpl. rewrite <- !list_fmap_compose. by apply list_fmap_ext.
Qed.

Lemma get_coord_names data name coord :
  get_coord data name = Return coord → name ∈ (coords data).*1.
Proof.
  unfold get_coord. intros Hc. apply item_is_Some.
  destruct (item name (coords data)); [eauto|done].
Qed.

Lemma set_attr_names data data' name key value :
  set_attr data name key value = Return data' →
  (coords data').*1 = (coords data).*1 ∧ dims data' = dims data.
Proof.
  unfold set_attr. destruct (get_coord data name) as [coord|e] eqn:Hc; [|done].
  simpl. intros [= <-]. simpl. split; [|done].
  apply set_item_names. by apply get_coord_names in Hc.
Qed.

Lemma set_coord_names data name coord :
  name ∈ (coords data).*1 →
  (coords (set_coord data name coord)).*1 = (coords data).*1.
Proof. intros Hin. unfold set_coord. simpl. by apply set_item_names. Qed.

Lemma match_values_nil_item {V} (f : V → bool) (mapping : list (string * V)) :
  match_values f mapping = [] ↔ Forall (λ nv, f nv.2 = false) mapping.
Proof.
  induction mapping as [|[k v] mapping IH]; simpl.
  - split; [constructor|done].
  - rewrite Forall_cons. simpl. destruct (f v); [naive_solver|].
    rewrite IH. naive_solver.
Qed.

Lemma translator_names (default_out_name default_units : string)
    (is_cf_type : DataArray A → bool) (cf_type : string) data data' coord_model :
  translator keep_attrs default_out_name default_units is_cf_type cf_type
    data coord_model = Return data' →
  (coords data').*1 ≡ₚ
    match match_values is_cf_type (coords data) with
    | match_ :: _ =>
        rename_name match_ (out_name_of coord_model cf_type default_out_name)
          <$> (coords data).*1
    | [] => (coords data).*1
    end.
Proof.
  unfold translator. case_bool_decide; [done|].
  destruct (match_values is_cf_type (coords data)) as [|match_ rest].
  { by intros [= <-]. }
  destruct (name_taken _ match_ _); [done|].
  rewrite rename_outcome. destruct (rename_refused _ _ _); [done|]. simpl.
  destruct (get_coord _ _) as [coord|e] eqn:Hc; [|done]. simpl.
  apply get_coord_names in Hc.
  destruct (attrs coord !! "units") as [source|].
  - destruct (cfunits.convert_units coord _ source) as [converted|e]; [|done].
    simpl. intros [-> _]%set_attr_names.
    rewrite set_coord_names by done. by rewrite rename_names.
  - intros [= <-]. by rewrite rename_names.
Qed.

(** The step of a role returns a dataset with as many coordinates, or
    raises a [ValueError] or a [ConversionError]. *)
Lemma translator_safe (default_out_name default_units : string)
    (is_cf_type : DataArray A → bool) (cf_type : string) data coord_model :
  match translator keep_attrs default_out_name default_units is_cf_type
          cf_type data coord_model with
  | Return data' => length (coords data') = length (coords data)
  | Raise (KeyError _) => False
  | Raise _ => True
  end.
Proof.
  destruct (translator _ _ _ _ _ data coord_model) as [data'|e] eqn:Ht.
  - apply translator_names in Ht. apply Permutation_length in Ht.
    rewrite length_fmap in Ht. rewrite Ht.
    destruct (match_values _ _); by rewrite !length_fmap.
  - destruct e as [| |key|]; [done|done| |done].
    unfold translator in Ht. case_bool_decide as Hlen; [done|].
    destruct (match_values is_cf_type (coords data)) as [|match_ rest] eqn:Hm;
      [done|].
    assert (rest = []) as -> by (destruct rest; [done|simpl in Hlen; lia]).
    destruct (name_taken (out_name_of coord_model cf_type default_out_name)
                match_ (coords data).*1) eqn:Hfree; [done|].
    destruct (translator_one_match keep_attrs default_out_name default_units
                is_cf_type cf_type data coord_model match_ Hm Hfree)
      as [[d Hd]|[(a & b & Hd)|[_ Hd]]];
      unfold translator in Hd; rewrite Hm in Hd; simpl in Hd;
      rewrite Hfree in Hd; congruence.
Qed.

Lemma translator_no_match (default_out_name default_units : string)
    (is_cf_type : DataArray A → bool) (cf_type : string) data coord_model :
  Forall (λ nc, is_cf_type nc.2 = false) (coords data) →
  translator keep_attrs default_out_name default_units is_cf_type cf_type
    data coord_model = Return data.
Proof.
  intros Hno%match_values_nil_item. unfold translator. by rewrite Hno.
Qed.

End Steps.

(** X9: when one coordinate satisfies the predicate of a role, no other
    coordinate has the canonical name and the matched coordinate has no
    ['units'] attribute, the step of the role is the rename alone, whatever
    the canonical unit: it returns what [data.rename] returns, the dataset
    with the coordinate (and the dimension of that name) renamed, and raises
    what [data.rename] raises. *)
Theorem translator_without_units
    {F A : Type} `{Arith F} `{ArrayLike F A} (keep_attrs : bool)
    (default_out_name default_units : string) (is_cf_type : DataArray A → bool)
    (cf_type : string) (data : Dataset A)
    (coord_model : gmap string (gmap string string))
    (match_ : string) (coord : DataArray A) :
  match_values is_cf_type (coords data) = [match_] →
  name_taken (out_name_of coord_model cf_type default_out_name) match_
    (coords data).*1 = false →
  item match_ (coords data) = Some coord →
  attrs coord !! "units" = None →
  translator keep_attrs default_out_name default_units is_cf_type cf_type
      data coord_model
    = rename data match_ (out_name_of coord_model cf_type default_out_name).
Proof.
  intros Hm Hfree Hitem Hu. unfold translator. rewrite Hm. simpl.
  rewrite Hfree, rename_outcome.
  destruct (rename_refused data match_ _); [done|]. simpl.
  rewrite (get_coord_rename_item _ _ _ _ Hitem Hfree). simpl.
  by rewrite Hu.
Qed.

(** X10: when the matched coordinate has the canonical unit already, an
    error of the rename is the error of the step; when the rename returns,
    the step returns: the coordinate is found under the canonical name with
    its values and attributes as they were, plus the attribute ['untis'],
    and the coordinate names are, in some order, the old names with the
    matched name replaced by the canonical name. *)
Theorem translator_canonical_units
    {F A : Type} `{Arith F} `{ArrayLike F A} (keep_attrs : bool)
    (default_out_name default_units : string) (is_cf_type : DataArray A → bool)
    (cf_type : string) (data : Dataset A)
    (coord_model : gmap string (gmap string string))
    (match_ : string) (coord : DataArray A) :
  let out_name := out_name_of coord_model cf_type default_out_name in
  let units := units_of coord_model cf_type default_units in
  match_values is_cf_type (coords data) = [match_] →
  name_taken out_name match_ (coords data).*1 = false →
  item match_ (coords data) = Some coord →
  attrs coord !! "units" = Some units →
  match rename data match_ out_name with
  | Raise e =>
      translator keep_attrs default_out_name default_units is_cf_type cf_type
        data coord_model = Raise e
  | Return _ =>
      ∃ data',
        translator keep_attrs default_out_name default_units is_cf_type cf_type
          data coord_model = Return data' ∧
        get_coord data' out_name
          = Return {| values := arr_rename match_ out_name (values coord);
                      attrs := <["untis":=units]> (attrs coord) |} ∧
        (coords data').*1 ≡ₚ rename_name match_ out_name <$> (coords data).*1
  end.
Proof.
  intros out_name units Hm Hfree Hitem Hu. unfold translator.
  fold out_name units. rewrite Hm. simpl.
  rewrite Hfree, rename_outcome.
  destruct (rename_refused data match_ out_name); [done|]. simpl.
  rewrite (get_coord_rename_item _ _ _ _ Hitem Hfree). simpl.
  rewrite Hu, convert_units_same. simpl.
  match goal with
  | |- context [set_coord ?d out_name ?c] =>
      destruct (set_attr_Return (set_coord d out_name c) out_name
                  "untis" units c) as (data' & Hset & _ & Hget);
        [apply get_coord_set_coord|]
  end.
  exists data'. split; [exact Hset|]. split; [exact Hget|].
  apply set_attr_names in Hset as [-> _].
  rewrite set_coord_names; [by rewrite rename_names|].
  rewrite rename_names. apply list_elem_of_fmap. exists match_.
  split; [unfold rename_name; by rewrite bool_decide_eq_true_2|].
  apply item_is_Some. eauto.
Qed.

(** X11: when the unit of the matched coordinate and the canonical unit are
    two different names of the pressure table, an error of the rename is the
    error of the step; when the rename returns, the step returns and the
    coordinate under the canonical name holds the old values times the
    factor of the table; its attributes are those that the product keeps,
    plus ['untis']. *)
Theorem translator_pressure_conversion
    {F A : Type} `{Arith F} `{ArrayLike F A} (keep_attrs : bool)
    (default_out_name default_units : string) (is_cf_type : DataArray A → bool)
    (cf_type : string) (data : Dataset A)
    (coord_model : gmap string (gmap string string))
    (match_ : string) (coord : DataArray A) (source_units : string) :
  let out_name := out_name_of coord_model cf_type default_out_name in
  let units := units_of coord_model cf_type default_units in
  match_values is_cf_type (coords data) = [match_] →
  name_taken out_name match_ (coords data).*1 = false →
  item match_ (coords data) = Some coord →
  attrs coord !! "units" = Some source_units →
  source_units ≠ units →
  source_units ∈ pressure_units (F:=F) →
  units ∈ pressure_units (F:=F) →
  match rename data match_ out_name with
  | Raise e =>
      translator keep_attrs default_out_name default_units is_cf_type cf_type
        data coord_model = Raise e
  | Return _ =>
      ∃ data',
        translator keep_attrs default_out_name default_units is_cf_type cf_type
          data coord_model = Return data' ∧
        get_coord data' out_name
          = Return {| values :=
                        arr_mul (arr_rename match_ out_name (values coord))
                          (scan units source_units PRESSURE_CONVERSION_RULES).1;
                      attrs := <["untis":=units]>
                                 (if keep_attrs then attrs coord else ∅) |}
  end.
Proof.
  intros out_name units Hm Hfree Hitem Hu Hne Hs Ht. unfold translator.
  fold out_name units. rewrite Hm. simpl.
  rewrite Hfree, rename_outcome.
  destruct (rename_refused data match_ out_name); [done|]. simpl.
  rewrite (get_coord_rename_item _ _ _ _ Hitem Hfree). simpl.
  rewrite Hu, convert_units_return; [|done|by apply pressure_matches_two].
  simpl.
  match goal with
  | |- context [set_coord ?d out_name ?c] =>
      destruct (set_attr_Return (set_coord d out_name c) out_name
                  "untis" units c) as (data' & Hset & _ & Hget);
        [apply get_coord_set_coord|]
  end.
  exists data'. split; [exact Hset|]. exact Hget.
Qed.

(** X13: a step that returns keeps every coordinate: the names of the new
    dataset are, in some order, the old names with the matched name replaced
    by the canonical name, and the dataset has as many coordinates as
    before.  When nothing matched the dataset is the old one. *)
Theorem translator_keeps_coordinates
    {F A : Type} `{Arith F} `{ArrayLike F A} (keep_attrs : bool)
    (default_out_name default_units : string) (is_cf_type : DataArray A → bool)
    (cf_type : string) (data data' : Dataset A)
    (coord_model : gmap string (gmap string string)) :
  translator keep_attrs default_out_name default_units is_cf_type cf_type
    data coord_model = Return data' →
  (coords data').*1 ≡ₚ
    match match_values is_cf_type (coords data) with
    | match_ :: _ =>
        rename_name match_ (out_name_of coord_model cf_type default_out_name)
          <$> (coords data).*1
    | [] => (coords data).*1
    end ∧
  length (coords data') = length (coords data) ∧
  (match_values is_cf_type (coords data) = [] → data' = data).
Proof.
  intros Ht. split; [|split].
  - by apply (translator_names keep_attrs) in Ht.
  - pose proof (translator_safe keep_attrs default_out_name default_units
                  is_cf_type cf_type data coord_model) as Hsafe.
    by rewrite Ht in Hsafe.
  - intros Hno. unfold translator in Ht. rewrite Hno in Ht. simpl in Ht.
    by injection Ht as <-.
Qed.


(** X15: a dataset of which no coordinate satisfies any of the seven
    predicates goes through [translate] unchanged. *)
Theorem translate_unrecognised
    {F A : Type} `{Arith F} `{ArrayLike F A} (keep_attrs : bool)
    (data : Dataset A) (coord_model : gmap string (gmap string string)) :
  Forall (λ nc : string * DataArray A,
            is_latitude nc.2 || is_longitude nc.2
            || is_forecast_reference_time nc.2 || is_forecast_period nc.2
            || is_valid_time nc.2 || is_vertical_pressure nc.2
            || is_realization nc.2 = false) (coords data) →
  translate data coord_model (TRANSLATORS keep_attrs) = Return data.
Proof.
  intros Hno. unfold TRANSLATORS. simpl.
  repeat (rewrite (translator_no_match keep_attrs);
          [simpl|eapply Forall_impl; [exact Hno|];
                 intros nc Hnc; simpl in Hnc;
                 repeat (apply orb_false_elim in Hnc as [Hnc ?]); done]).
  done.
Qed.

Section ValidTime.
Context {F A : Type} `{Arith F} `{ArrayLike F A}.
Variable keep_attrs : bool.
Implicit Types (data : Dataset A) (coord : DataArray A).

(** The dataset that a derivation leaves, in one assignment. *)
Lemma ensure_valid_time_present_derived data valid_time_name time times :
  match_values is_valid_time (coords data) = [] →
  match_values is_forecast_reference_time (coords data) = time :: times →
  ∃ time_coord derived,
    get_coord data time = Return time_coord ∧
    (match_values is_forecast_period (coords data) = [] → derived = time_coord) ∧
    ensure_valid_time_present keep_attrs data valid_time_name
      = Return
          ({| dims := dims data
                      ++ filter (λ d, d ∉ dims data) (arr_dims (values derived));
              coords := set_item valid_time_name (tagged derived) (coords data) |},
           (valid_time_name, time,
            match match_values is_forecast_period (coords data) with
            | step :: _ => step
            | [] => ""
            end)).
Proof.
  intros Hvalid Htimes.
  destruct (match_values_first _ _ _ _ Htimes) as [time_coord Ht].
  assert (get_coord data time = Return time_coord) as Hgt
    by (unfold get_coord; by rewrite Ht).
  unfold ensure_valid_time_present. rewrite Hvalid, Htimes, Hgt.
  destruct (match_values is_forecast_period (coords data))
    as [|step steps] eqn:Hsteps.
  - exists time_coord, time_coord. split; [done|]. split; [done|]. simpl.
    unfold set_attr, tagged. rewrite get_coord_set_coord. simpl.
    by rewrite set_item_set_item.
  - destruct (match_values_first _ _ _ _ Hsteps) as [step_coord Hs].
    assert (get_coord data step = Return step_coord) as Hgs
      by (unfold get_coord; by rewrite Hs).
    exists time_coord, (da_add keep_attrs time_coord step_coord).
    split; [done|]. split; [done|]. rewrite Hgs. simpl.
    unfold set_attr, tagged. rewrite get_coord_set_coord. simpl.
    by rewrite set_item_set_item.
Qed.

End ValidTime.

(** X16: [ensure_valid_time_present] raises nothing but the [ValueError]
    "Not enough information ...", and raises it exactly when neither a
    valid-time nor a reference-time coordinate exists.  When it returns, the
    valid-time name it returns is the name of a coordinate of the dataset
    it leaves. *)
Theorem ensure_valid_time_present_outcome
    {F A : Type} `{Arith F} `{ArrayLike F A} (keep_attrs : bool)
    (data : Dataset A) (valid_time_name : string) :
  match ensure_valid_time_present keep_attrs data valid_time_name with
  | Raise e =>
      e = ValueError NotEnoughInformation ∧
      match_values is_valid_time (coords data) = [] ∧
      match_values is_forecast_reference_time (coords data) = []
  | Return (data', (valid_time, _, _)) =>
      (match_values is_valid_time (coords data) ≠ [] ∨
       match_values is_forecast_reference_time (coords data) ≠ []) ∧
      valid_time ∈ (coords data').*1
  end.
Proof.
  destruct (match_values is_valid_time (coords data))
    as [|valid_time valid_times] eqn:Hvalid.
  - destruct (match_values is_forecast_reference_time (coords data))
      as [|time times] eqn:Htimes.
    + unfold ensure_valid_time_present. by rewrite Hvalid, Htimes.
    + destruct (ensure_valid_time_present_derived keep_attrs data
                  valid_time_name time times Hvalid Htimes)
        as (tc & derived & _ & _ & ->).
      split; [by right|]. simpl. apply item_is_Some.
      rewrite item_set_item. eauto.
  - unfold ensure_valid_time_present. rewrite Hvalid.
    split; [by left|].
    apply (match_values_names is_valid_time). rewrite Hvalid. by left.
Qed.

(** X17: a derivation touches one coordinate only: after
    [ensure_valid_time_present] every coordinate but the one under the
    valid-time name is found as before, and the dataset has its old
    dimensions first. *)
Theorem ensure_valid_time_present_frame
    {F A : Type} `{Arith F} `{ArrayLike F A} (keep_attrs : bool)
    (data data' : Dataset A) (valid_time_name : string)
    (names : string * string * string) (name : string) :
  ensure_valid_time_present keep_attrs data valid_time_name
    = Return (data', names) →
  name ≠ valid_time_name →
  get_coord data' name = get_coord data name ∧
  dims data `prefix_of` dims data'.
Proof.
  intros Hp Hne.
  destruct (match_values is_valid_time (coords data))
    as [|valid_time valid_times] eqn:Hvalid.
  - destruct (match_values is_forecast_reference_time (coords data))
      as [|time times] eqn:Htimes.
    { unfold ensure_valid_time_present in Hp. by rewrite Hvalid, Htimes in Hp. }
    destruct (ensure_valid_time_present_derived keep_attrs data
                valid_time_name time times Hvalid Htimes)
      as (tc & derived & _ & _ & Hd).
    rewrite Hd in Hp. injection Hp as <- _. split.
    + unfold get_coord. simpl. by rewrite item_set_item_ne.
    + simpl. by apply prefix_app_r.
  - unfold ensure_valid_time_present in Hp. rewrite Hvalid in Hp.
    by injection Hp as <- _.
Qed.

(** X18: a second call finds the valid time of the first: on the dataset
    that [ensure_valid_time_present] leaves, the call returns the same
    valid-time name, changes nothing, and returns the empty string for the
    reference-time and the period name, whatever the first call returned
    for them. *)
Theorem ensure_valid_time_present_again
    {F A : Type} `{Arith F} `{ArrayLike F A} (keep_attrs : bool)
    (data data' : Dataset A) (valid_time_name valid_time_name' : string)
    (valid_time time step : string) :
  ensure_valid_time_present keep_attrs data valid_time_name
    = Return (data', (valid_time, time, step)) →
  ensure_valid_time_present keep_attrs data' valid_time_name'
    = Return (data', (valid_time, "", "")).
Proof.
  intros Hp.
  destruct (match_values is_valid_time (coords data))
    as [|valid_time0 valid_times] eqn:Hvalid.
  - destruct (match_values is_forecast_reference_time (coords data))
      as [|time0 times] eqn:Htimes.
    { unfold ensure_valid_time_present in Hp. by rewrite Hvalid, Htimes in Hp. }
    destruct (ensure_valid_time_present_derived keep_attrs data
                valid_time_name time0 times Hvalid Htimes)
      as (tc & derived & _ & _ & Hd).
    rewrite Hd in Hp. injection Hp as <- <- _ _.
    unfold ensure_valid_time_present. simpl.
    by rewrite (match_values_set_item is_valid_time valid_time_name
                  (tagged derived) (coords data) Hvalid
                  (is_valid_time_tagged _ _)).
  - unfold ensure_valid_time_present in Hp. rewrite Hvalid in Hp.
    injection Hp as <- <- _ _.
    unfold ensure_valid_time_present. by rewrite Hvalid.
Qed.

(** X19: with a reference time and no forecast period the derived valid
    time has the size of the reference time, so [ensure_valid_time] swaps
    the reference-time dimension for ['valid_time'] and never looks up the
    empty period name. *)
Theorem ensure_valid_time_without_period
    {F A : Type} `{Arith F} `{ArrayLike F A} (keep_attrs : bool)
    (data data' : Dataset A) (valid_time time step : string) :
  match_values is_valid_time (coords data) = [] →
  match_values is_forecast_period (coords data) = [] →
  ensure_valid_time_present keep_attrs data "valid_time"
    = Return (data', (valid_time, time, step)) →
  valid_time ∉ dims data' →
  step = "" ∧
  ensure_valid_time keep_attrs data = swap_dims data' time valid_time.
Proof.
  intros Hvalid Hsteps Hp Hdim.
  destruct (match_values is_forecast_reference_time (coords data))
    as [|time0 times] eqn:Htimes.
  { unfold ensure_valid_time_present in Hp. by rewrite Hvalid, Htimes in Hp. }
  destruct (ensure_valid_time_present_derived keep_attrs data
              "valid_time" time0 times Hvalid Htimes)
    as (tc & derived & Hgt & Hcopy & Hd).
  specialize (Hcopy Hsteps). subst derived.
  rewrite Hsteps in Hd. rewrite Hd in Hp. injection Hp as <- <- <- <-.
  split; [done|].
  unfold ensure_valid_time. rewrite Hd. simpl.
  rewrite bool_decide_eq_true_2 by done.
  assert (get_coord
            {| dims := dims data
                       ++ filter (λ d, d ∉ dims data) (arr_dims (values tc));
               coords := set_item "valid_time" (tagged tc) (coords data) |}
            "valid_time" = Return (tagged tc)) as Hv.
  { unfold get_coord. simpl. by rewrite item_set_item. }
  assert (∃ c, get_coord
            {| dims := dims data
                       ++ filter (λ d, d ∉ dims data) (arr_dims (values tc));
               coords := set_item "valid_time" (tagged tc) (coords data) |}
            time0 = Return c ∧ values c = values tc) as (c & Hc & Hvalues).
  { destruct (decide (time0 = "valid_time")) as [->|Hne].
    - exists (tagged tc). by split.
    - exists tc. split; [|done]. unfold get_coord in *. simpl.
      by rewrite item_set_item_ne. }
  rewrite Hc, Hv. simpl. rewrite Hvalues.
  by rewrite bool_decide_eq_true_2.
Qed.

(** X20: the last [return data] of [ensure_valid_time] is reached only
    when the valid time is a dimension already.  Otherwise the function ends
    with a lookup that fails or with one of the two swaps: the second size
    test compares a size with itself and never fails. *)
Theorem ensure_valid_time_outcome
    {F A : Type} `{Arith F} `{ArrayLike F A} (keep_attrs : bool)
    (data data' : Dataset A) (valid_time time step : string) :
  ensure_valid_time_present keep_attrs data "valid_time"
    = Return (data', (valid_time, time, step)) →
  ensure_valid_time keep_attrs data =
    if bool_decide (valid_time ∈ dims data') then Return data'
    else
      time_coord ← get_coord data' time;
      valid_time_coord ← get_coord data' valid_time;
      if bool_decide (arr_size (values time_coord)
                      = arr_size (values valid_time_coord))
      then swap_dims data' time valid_time
      else (_ ← get_coord data' step; swap_dims data' step valid_time).
Proof.
  intros Hp. unfold ensure_valid_time. rewrite Hp. simpl.
  destruct (decide (valid_time ∈ dims data')) as [Hin|Hin].
  - rewrite (bool_decide_eq_true_2 (valid_time ∈ dims data')) by done.
    by rewrite bool_decide_eq_false_2 by tauto.
  - rewrite (bool_decide_eq_false_2 (valid_time ∈ dims data')) by done.
    rewrite bool_decide_eq_true_2 by done.
    destruct (get_coord data' time) as [tc|e]; [|done]. simpl.
    destruct (get_coord data' valid_time) as [vc|e]; [|done]. simpl.
    case_bool_decide; [done|].
    destruct (get_coord data' step) as [sc|e]; [|done]. simpl.
    by rewrite bool_decide_eq_true_2.
Qed.

(** X12: when the unit of the matched coordinate and the canonical unit
    are not convertible, the step returns no dataset: it raises the error of
    the rename when the rename raises one, and [ConversionError] with the
    two units once the rename has returned, before any attribute is
    written. *)
Theorem translator_unconvertible_units
    {F A : Type} `{Arith F} `{ArrayLike F A} (keep_attrs : bool)
    (default_out_name default_units : string) (is_cf_type : DataArray A → bool)
    (cf_type : string) (data : Dataset A)
    (coord_model : gmap string (gmap string string))
    (match_ : string) (coord : DataArray A) (source_units : string) :
  let out_name := out_name_of coord_model cf_type default_out_name in
  let units := units_of coord_model cf_type default_units in
  match_values is_cf_type (coords data) = [match_] →
  name_taken out_name match_ (coords data).*1 = false →
  item match_ (coords data) = Some coord →
  attrs coord !! "units" = Some source_units →
  are_convertible (F:=F) units source_units = false →
  translator keep_attrs default_out_name default_units is_cf_type cf_type
    data coord_model =
    match rename data match_ out_name with
    | Raise e => Raise e
    | Return _ => Raise (ConversionError source_units units)
    end.
Proof.
  intros out_name units Hm Hfree Hitem Hu Hc. unfold translator.
  fold out_name units. rewrite Hm. simpl.
  rewrite Hfree, rename_outcome.
  destruct (rename_refused data match_ out_name); [done|]. simpl.
  rewrite (get_coord_rename_item _ _ _ _ Hitem Hfree). simpl.
  rewrite Hu.
  assert (¬ (units = source_units ∨
             membership_matches units source_units
               PRESSURE_CONVERSION_RULES = 2)) as Hn.
  { rewrite <- are_convertible_true. congruence. }
  rewrite convert_units_raise; [done|tauto..].
Qed.

(** *** The examples *)

(** X9 on three ensemble members. *)
Lemma translator_without_units_ensemble :
  translator false "number" "1" is_realization "realization"
    ensemble_dataset COORD_MODEL
  = Return (renamed ensemble_dataset "ens" "number").
Proof.
  assert (rename ensemble_dataset "ens" "number"
          = Return (renamed ensemble_dataset "ens" "number")) as Hr
    by reflexivity.
  rewrite <- Hr.
  apply (translator_without_units false "number" "1" is_realization
           "realization" ensemble_dataset COORD_MODEL "ens"
           (coordinate "ens" "int64" [0%float; 1%float; 2%float]
              [("standard_name", "realization")]));
    reflexivity.
Defined.

(** X10 on a latitude axis in degrees north. *)
Lemma translator_canonical_units_latitude :
  ∃ data',
    translator false "latitude" "degrees_north" is_latitude "latitude"
      latitude_dataset COORD_MODEL = Return data' ∧
    get_coord data' "latitude"
      = Return {| values := arr_rename "latitude" "latitude"
                              (vector "latitude" "float64" [45%float; 46%float]);
                  attrs := <["untis":="degrees_north"]>
                             {["units" := "degrees_north"]} |} ∧
    (coords data').*1 ≡ₚ ["latitude"].
Proof.
  assert (match_values is_latitude (coords latitude_dataset) = ["latitude"])
    as Hm by reflexivity.
  assert (name_taken "latitude" "latitude" (coords latitude_dataset).*1 = false)
    as Hfree by reflexivity.
  assert (item "latitude" (coords latitude_dataset)
          = Some (coordinate "latitude" "float64" [45%float; 46%float]
                    [("units", "degrees_north")])) as Hitem by reflexivity.
  assert (attrs (coordinate "latitude" "float64" [45%float; 46%float]
                   [("units", "degrees_north")]) !! "units"
          = Some "degrees_north") as Hu by reflexivity.
  exact (translator_canonical_units false "latitude" "degrees_north"
           is_latitude "latitude" latitude_dataset COORD_MODEL "latitude"
           _ Hm Hfree Hitem Hu).
Defined.

(** X11 on two pressure levels in pascal. *)
Lemma translator_pressure_conversion_lev :
  ∃ data',
    translator true "level" "hPa" is_vertical_pressure "vertical_pressure"
      lev_dataset COORD_MODEL = Return data' ∧
    get_coord data' "level"
      = Return {| values :=
                    arr_mul (arr_rename "lev" "level"
                               (vector "lev" "float64"
                                  [100000%float; 85000%float]))
                      (scan (F:=float) "hPa" "Pa" PRESSURE_CONVERSION_RULES).1;
                  attrs := <["untis":="hPa"]> {["units" := "Pa"]} |}.
Proof.
  assert (match_values is_vertical_pressure (coords lev_dataset) = ["lev"])
    as Hm by reflexivity.
  assert (name_taken "level" "lev" (coords lev_dataset).*1 = false)
    as Hfree by reflexivity.
  assert (item "lev" (coords lev_dataset)
          = Some (coordinate "lev" "float64" [100000%float; 85000%float]
                    [("units", "Pa")])) as Hitem by reflexivity.
  assert (attrs (coordinate "lev" "float64" [100000%float; 85000%float]
                   [("units", "Pa")]) !! "units" = Some "Pa") as Hu
    by reflexivity.
  assert ("Pa" ≠ "hPa") as Hne by discriminate.
  assert ("Pa" ∈ pressure_units (F:=float)) as Hs
    by (apply list_elem_of_In; simpl; tauto).
  assert ("hPa" ∈ pressure_units (F:=float)) as Ht
    by (apply list_elem_of_In; simpl; tauto).
  exact (translator_pressure_conversion true "level" "hPa"
           is_vertical_pressure "vertical_pressure" lev_dataset COORD_MODEL
           "lev" _ "Pa" Hm Hfree Hitem Hu Hne Hs Ht).
Defined.

(** X13 on two pressure levels in pascal. *)
Lemma translator_keeps_coordinates_lev :
  translator false "level" "hPa" is_vertical_pressure "vertical_pressure"
    lev_dataset COORD_MODEL = Return translated_lev_dataset ∧
  (coords translated_lev_dataset).*1 ≡ₚ ["level"] ∧
  length (coords translated_lev_dataset) = 1.
Proof.
  assert (translator false "level" "hPa" is_vertical_pressure
            "vertical_pressure" lev_dataset COORD_MODEL
          = Return translated_lev_dataset) as Ht by (vm_compute; reflexivity).
  split; [exact Ht|].
  destruct (translator_keeps_coordinates false "level" "hPa"
              is_vertical_pressure "vertical_pressure" lev_dataset
              translated_lev_dataset COORD_MODEL Ht) as (Hnames & Hlen & _).
  split; [exact Hnames|exact Hlen].
Defined.

(** X15 on an axis without attributes. *)
Lemma translate_unrecognised_plain :
  translate plain_dataset COORD_MODEL (TRANSLATORS false) = Return plain_dataset.
Proof.
  apply (translate_unrecognised false plain_dataset COORD_MODEL).
  repeat constructor.
Defined.

(** X17 on two reference times and three periods: the reference time is
    found as before. *)
Lemma ensure_valid_time_present_frame_forecast :
  ensure_valid_time_present false forecast_dataset "valid_time"
    = Return (derived_forecast_dataset, ("valid_time", "time", "step")) ∧
  get_coord derived_forecast_dataset "time" = get_coord forecast_dataset "time" ∧
  dims forecast_dataset `prefix_of` dims derived_forecast_dataset.
Proof.
  assert (ensure_valid_time_present false forecast_dataset "valid_time"
          = Return (derived_forecast_dataset, ("valid_time", "time", "step")))
    as Hp by (vm_compute; reflexivity).
  split; [exact Hp|].
  apply (ensure_valid_time_present_frame false forecast_dataset
           derived_forecast_dataset "valid_time" _ "time" Hp).
  discriminate.
Defined.

(** X18 on two reference times and three periods. *)
Lemma ensure_valid_time_present_again_forecast :
  ensure_valid_time_present false forecast_dataset "valid_time"
    = Return (derived_forecast_dataset, ("valid_time", "time", "step")) ∧
  ensure_valid_time_present false derived_forecast_dataset "valid_time"
    = Return (derived_forecast_dataset, ("valid_time", "", "")).
Proof.
  assert (ensure_valid_time_present false forecast_dataset "valid_time"
          = Return (derived_forecast_dataset, ("valid_time", "time", "step")))
    as Hp by (vm_compute; reflexivity).
  split; [exact Hp|].
  exact (ensure_valid_time_present_again false forecast_dataset
           derived_forecast_dataset "valid_time" "valid_time" _ _ _ Hp).
Defined.

(** X19 on two reference times without a period. *)
Lemma ensure_valid_time_without_period_analysis :
  ensure_valid_time_present false analysis_dataset "valid_time"
    = Return (derived_analysis_dataset, ("valid_time", "time", "")) ∧
  ensure_valid_time false analysis_dataset
    = swap_dims derived_analysis_dataset "time" "valid_time".
Proof.
  assert (ensure_valid_time_present false analysis_dataset "valid_time"
          = Return (derived_analysis_dataset, ("valid_time", "time", "")))
    as Hp by (vm_compute; reflexivity).
  split; [exact Hp|].
  assert (match_values is_valid_time (coords analysis_dataset) = []) as Hvalid
    by reflexivity.
  assert (match_values is_forecast_period (coords analysis_dataset) = [])
    as Hsteps by reflexivity.
  assert ("valid_time" ∉ dims derived_analysis_dataset) as Hdim.
  { intros Hin%list_elem_of_In. vm_compute in Hin. intuition discriminate. }
  apply (ensure_valid_time_without_period false analysis_dataset
           derived_analysis_dataset "valid_time" "time" ""
           Hvalid Hsteps Hp Hdim).
Defined.

(** X20 on two reference times and three periods. *)
Lemma ensure_valid_time_outcome_forecast :
  ensure_valid_time_present false forecast_dataset "valid_time"
    = Return (derived_forecast_dataset, ("valid_time", "time", "step")) ∧
  ensure_valid_time false forecast_dataset
    = swap_dims derived_forecast_dataset "step" "valid_time".
Proof.
  assert (ensure_valid_time_present false forecast_dataset "valid_time"
          = Return (derived_forecast_dataset, ("valid_time", "time", "step")))
    as Hp by (vm_compute; reflexivity).
  split; [exact Hp|].
  rewrite (ensure_valid_time_outcome false forecast_dataset
             derived_forecast_dataset "valid_time" "time" "step" Hp).
  vm_compute. reflexivity.
Defined.

(** X12 on a latitude axis spelt ['degree_north']. *)
Lemma translator_unconvertible_units_lat :
  translator false "latitude" "degrees_north" is_latitude "latitude"
    lat_dataset COORD_MODEL
  = Raise (ConversionError "degree_north" "degrees_north").
Proof.
  assert (match_values is_latitude (coords lat_dataset) = ["lat"]) as Hm
    by reflexivity.
  assert (name_taken "latitude" "lat" (coords lat_dataset).*1 = false)
    as Hfree by reflexivity.
  assert (item "lat" (coords lat_dataset)
          = Some (coordinate "lat" "float64" [45%float; 46%float]
                    [("units", "degree_north")])) as Hitem by reflexivity.
  assert (attrs (coordinate "lat" "float64" [45%float; 46%float]
                   [("units", "degree_north")]) !! "units"
          = Some "degree_north") as Hu by reflexivity.
  assert (are_convertible (F:=float) "degrees_north" "degree_north" = false)
    as Hc by reflexivity.
  exact (translator_unconvertible_units false "latitude" "degrees_north"
           is_latitude "latitude" lat_dataset COORD_MODEL "lat" _
           "degree_north" Hm Hfree Hitem Hu Hc).
Defined.

End cfcoords_laws.
